(** * rootCauseAI editor extension: command handlers, backend client, configuration

    A shallow embedding of the TypeScript sources under [extension/src]
    (commands, [utils/backendClient], [utils/notifications], [utils/config])
    and the properties the specification states about them.

    Conventions of the embedding:
    - a JavaScript [number] is an IEEE 754 binary64 value ([float]);
    - a JavaScript string is a [string]; the suffixes and separators the code
      tests are ASCII, so byte-wise and code-unit-wise comparison agree;
    - an optional field [f?: T] is an [option T];
    - an [async] function is a program of the monad [Prog]: a finite tree of
      requests to the host editor and to the HTTP client, each of which
      settles with a value or with a thrown value;
    - a thrown value is any value, as the handlers catch [any]: an [Error]
      object is an object with a [message], and [undefined] and [null] can
      be thrown as well;
    - a notification that is not awaited ([showInformationMessage] and the
      like without a modal dialog) is an output of the program and cannot
      make it fail.

    Of the entry point [extension.ts] the health check at start-up is
    embedded; the registration of the five commands is not. *)

From Stdlib Require Import ZArith Ascii String List Floats DecimalString Lia.
From stdpp Require Import base option list gmap strings.

Set Warnings "-register-all,-inexact-float".

Local Open Scope Z_scope.

(* ================================================================== *)
(** * JavaScript strings *)
(* ================================================================== *)

Module JsString.

(** The double-quote character, for HTML attributes. *)
Definition dq : string := String (ascii_of_nat 34) EmptyString.

(** [String.prototype.endsWith(suffix)]: some tail of [s] is [suffix]. *)
Fixpoint endsWith (s suffix : string) : bool :=
  String.eqb s suffix ||
  match s with
  | EmptyString => false
  | String _ s' => endsWith s' suffix
  end.

(** One pass of [text.replace(/c/g, rep)] for a one-character pattern. *)
Fixpoint replaceAll (c : ascii) (rep : string) (text : string) : string :=
  match text with
  | EmptyString => EmptyString
  | String a rest =>
      if Ascii.eqb a c then rep +:+ replaceAll c rep rest
      else String a (replaceAll c rep rest)
  end.

(** [Array.prototype.join('')] on an array of strings. *)
Definition join (parts : list string) : string :=
  fold_right String.append EmptyString parts.

(** Decimal digits of a non-negative integer (array lengths, indices). *)
Definition of_nat (n : nat) : string :=
  NilZero.string_of_uint (Nat.to_uint n).

Definition of_Z (n : Z) : string :=
  NilZero.string_of_uint (N.to_uint (Z.to_N n)).

(** [a || b] on an optional string: the empty string is falsy. *)
Definition or_else (a : option string) (b : string) : string :=
  match a with
  | Some (String c s) => String c s
  | Some EmptyString | None => b
  end.

End JsString.

(* ================================================================== *)
(** * JavaScript values of type [any] *)
(* ================================================================== *)

Inductive JsValue : Type :=
| JUndefined
| JNull
| JBool (b : bool)
| JNum (x : float)
| JStr (s : string)
| JArr (items : list JsValue)
| JObj (fields : list (string * JsValue)).

(** Thrown values. [throw] takes any value and [catch (error: any)] receives
    it as it is. *)
Definition JsError : Type := JsValue.

(** An [Error] object, as axios, the runtime and the editor throw them: an
    object whose [message] is a string. *)
Definition mkError (message : string) : JsError :=
  JObj [("message", JStr message)].

Module Js.

(** ToBoolean. *)
Definition truthy (v : JsValue) : bool :=
  match v with
  | JUndefined | JNull => false
  | JBool b => b
  | JNum x => negb (PrimFloat.is_zero x || PrimFloat.is_nan x)
  | JStr EmptyString => false
  | JStr (String _ _) => true
  | JArr _ | JObj _ => true
  end.

(** [a || b]. *)
Definition or (a b : JsValue) : JsValue := if truthy a then a else b.

Fixpoint assoc (key : string) (fields : list (string * JsValue)) : option JsValue :=
  match fields with
  | [] => None
  | (k, v) :: rest => if String.eqb k key then Some v else assoc key rest
  end.

(** [v.key] on a value that is neither [undefined] nor [null], for a key
      that is not a built-in property of strings, numbers, booleans or
      arrays: a missing property reads as [undefined]. *)
Definition field (v : JsValue) (key : string) : JsValue :=
  match v with
  | JObj fields => default JUndefined (assoc key fields)
  | _ => JUndefined
  end.

(** [v.key] in general: reading a property of [undefined] or [null] throws
      a [TypeError]. *)
Definition get_prop (v : JsValue) (key : string) : JsError + JsValue :=
  match v with
  | JUndefined =>
      inl (mkError ("Cannot read properties of undefined (reading '" +:+ key +:+ "')"))
  | JNull =>
      inl (mkError ("Cannot read properties of null (reading '" +:+ key +:+ "')"))
  | _ => inr (field v key)
  end.

(** [v === 'literal']. *)
Definition strict_eq_string (v : JsValue) (literal : string) : bool :=
  match v with
  | JStr s => String.eqb s literal
  | _ => false
  end.

(** [v] is [undefined] or [null]. *)
Definition nullish (v : JsValue) : bool :=
  match v with
  | JUndefined | JNull => true
  | _ => false
  end.

End Js.

(* ================================================================== *)
(** * Numbers: [Number.prototype.toFixed] *)
(* ================================================================== *)

(** What the JavaScript runtime supplies and the sources only call:
    [Number::toString] (template interpolation of a number, and [toFixed] at
    or above 10^21) and [new Date(s).toLocaleString()], which depends on the
    locale and time zone of the host. *)
Class Runtime : Type := {
  Number_toString : float -> string;
  Date_toLocaleString : string -> string
}.

Module JsNumber.

(** The integer [n] for which [n / 10^fd - x] is closest to zero, the
      larger one of two, for the non-negative real [x = m * 2^e]. *)
Definition nearest_scaled (m : positive) (e : Z) (fd : nat) : Z :=
  let num := Z.pos m * 10 ^ Z.of_nat fd in
  if 0 <=? e then num * 2 ^ e
  else (2 * num + 2 ^ (- e)) / 2 ^ (- e + 1).

(** [m * 2^e >= 10^21]. *)
Definition at_least_1e21 (m : positive) (e : Z) : bool :=
  if 0 <=? e then 10 ^ 21 <=? Z.pos m * 2 ^ e
  else 10 ^ 21 * 2 ^ (- e) <=? Z.pos m.

Fixpoint zeros (k : nat) : string :=
  match k with
  | O => EmptyString
  | S k' => String "0" (zeros k')
  end.

(** The digits of [n] with a decimal point before the last [fd] of them,
      padded with zeros to at least [fd + 1] digits. *)
Definition place_point (digits : string) (fd : nat) : string :=
  match fd with
  | O => digits
  | S _ =>
      let k := String.length digits in
      let padded := zeros (S fd - k) +:+ digits in
      let k' := String.length padded in
      substring 0 (k' - fd) padded +:+ "." +:+ substring (k' - fd) fd padded
  end.

(** [x.toFixed(fd)] for [0 <= fd <= 100]. *)
Definition toFixed `{Runtime} (x : float) (fd : nat) : string :=
  match Prim2SF x with
  | S754_nan => "NaN"
  | S754_infinity false => "Infinity"
  | S754_infinity true => "-Infinity"
  | S754_zero _ => place_point "0" fd
  | S754_finite s m e =>
      (if s then "-" else "") +:+
      (if at_least_1e21 m e then Number_toString (PrimFloat.abs x)
       else place_point (JsString.of_Z (nearest_scaled m e fd)) fd)
  end.


End JsNumber.

(** Template interpolation [`${v}`] of a value of type [any]: ToString. *)
Fixpoint ToString `{Runtime} (v : JsValue) : string :=
  match v with
  | JUndefined => "undefined"
  | JNull => "null"
  | JBool true => "true"
  | JBool false => "false"
  | JNum x => Number_toString x
  | JStr s => s
  | JArr items =>
      String.concat ","
        (map (fun item =>
                match item with
                | JUndefined | JNull => EmptyString
                | _ => ToString item
                end) items)
  | JObj _ => "[object Object]"
  end.

(** [`${s}`] for an optional string. *)
Definition show_optional (s : option string) : string :=
  default "undefined" s.

(** [`${error.message}`] for a caught value: the read of [message] throws a
    [TypeError] when the value is [undefined] or [null]; what it gives is
    converted to a string. *)
Definition error_message `{Runtime} (error : JsError) : JsError + string :=
  match Js.get_prop error "message" with
  | inl type_error => inl type_error
  | inr message => inr (ToString message)
  end.

(* ================================================================== *)
(** * Data model ([utils/backendClient.ts]) *)
(* ================================================================== *)

Module FixSuggestion.
Record t : Type := mk {
  file_path : string;
  original_snippet : string;
  new_snippet : string;
  explanation : string;
  confidence : float;
  line_number : option float
}.
End FixSuggestion.

(** [fixes], [execution_time] and [tokens_used] are declared without [?]; the
    Fix and Explain commands guard against the absence of the first two
    ([result.fixes || []], [result.execution_time?.toFixed(2)]) and
    interpolate the third as it comes, so the three are optional here. *)
Module AnalyzeResponse.
Record t : Type := mk {
  status : string;
  parsed_error : option JsValue;
  root_cause_analysis : option string;
  fixes : option (list FixSuggestion.t);
  execution_time : option float;
  tokens_used : option float;
  error_message : option string
}.
End AnalyzeResponse.

Module ApplyFixResponse.
Record t : Type := mk {
  success : bool;
  message : string;
  fix_id : option string
}.
End ApplyFixResponse.

(** The anonymous [{ success: boolean; message: string }] of the undo calls. *)
Module UndoResponse.
Record t : Type := mk {
  success : bool;
  message : string
}.
End UndoResponse.

Module HistoryItem.
Record t : Type := mk {
  fix_id : string;
  file_path : string;
  timestamp : string;
  reverted : bool
}.
End HistoryItem.

(** The body [{ fixes: HistoryItem[] }] of [GET /history]. *)
Module HistoryResponse.
Record t : Type := mk { fixes : list HistoryItem.t }.
End HistoryResponse.

Module Stats.
Record t : Type := mk {
  total_fixes : float;
  active_fixes : float;
  reverted_count : float;
  files_modified : float
}.
End Stats.

(** Request bodies. *)
Module AnalyzeRequest.
Record t : Type := mk {
  error_log : string;
  project_root : string;
  provider : JsValue;
  max_retries : JsValue
}.
End AnalyzeRequest.

Module ApplyFixRequest.
Record t : Type := mk {
  fix_ : FixSuggestion.t;   (* [fix] is reserved *)
  language : string;
  dry_run : bool
}.
End ApplyFixRequest.

(* ================================================================== *)
(** * Configuration ([utils/config.ts]) *)
(* ================================================================== *)

Module Config.

(** The [vscode.WorkspaceConfiguration] snapshot of the [rootcauseai]
      section: the effective value of each setting, if it has one. *)
Record t : Type := mk { config : gmap string JsValue }.

(** [this.config.get<T>(key)]: the generic parameter is not checked. *)
Definition get (c : t) (key : string) : JsValue :=
  default JUndefined (config c !! key).

Definition getBackendUrl (c : t) : JsValue :=
  Js.or (get c "backendUrl") (JStr "http://localhost:8000").

Definition getProvider (c : t) : JsValue :=
  Js.or (get c "provider") (JStr "gemini").

Definition getMaxRetries (c : t) : JsValue :=
  Js.or (get c "maxRetries") (JNum 2).

Definition getAutoStartBackend (c : t) : JsValue :=
  Js.or (get c "autoStartBackend") (JBool false).

End Config.

(* ================================================================== *)
(** * Asynchronous programs *)
(* ================================================================== *)

Module QuickPickItem.
(** [FixQuickPickItem]: a [vscode.QuickPickItem] that carries its fix. *)
Record t : Type := mk {
  label : string;
  description : string;
  detail : string;
  fix_ : FixSuggestion.t   (* [fix] is reserved *)
}.
End QuickPickItem.

(** The active editor, seen through [editor.document.getText(editor.selection)]. *)
Record TextEditor : Type := mkEditor { selected_text : string }.

Record TextDocument : Type := mkDocument { uri : string }.

Record WebviewPanel : Type := mkPanel { panel_id : nat }.

Inductive ViewColumn : Type := ViewColumnOne | ViewColumnTwo.

(** Requests that settle with a value of type [X] or reject: calls of the
    axios instance (one per endpoint, typed as the client declares them) and
    of the editor API. *)
Inductive Op : Type -> Type :=
(* this.client.get('/'): the body is [any] *)
| HttpGetRoot : Op JsValue
(* this.client.post<AnalyzeResponse>('/analyze', body) *)
| HttpPostAnalyze (body : AnalyzeRequest.t) : Op AnalyzeResponse.t
(* this.client.post<ApplyFixResponse>('/apply-fix', body) *)
| HttpPostApplyFix (body : ApplyFixRequest.t) : Op ApplyFixResponse.t
(* this.client.post('/undo') *)
| HttpPostUndo : Op UndoResponse.t
(* this.client.post(`/undo/${fixId}`) *)
| HttpPostUndoFix (fixId : string) : Op UndoResponse.t
(* this.client.get<{ fixes: HistoryItem[] }>('/history', { params: { count } }) *)
| HttpGetHistory (count : Z) : Op HistoryResponse.t
(* this.client.get<Stats>('/stats') *)
| HttpGetStats : Op Stats.t
(* vscode.window.showInputBox({ prompt, placeHolder, ignoreFocusOut }) *)
| ShowInputBox (prompt placeHolder : string) (ignoreFocusOut : bool) : Op (option string)
(* vscode.window.showQuickPick(items, { placeHolder, ignoreFocusOut }) *)
| ShowQuickPick (items : list QuickPickItem.t) (placeHolder : string)
    (ignoreFocusOut : bool) : Op (option QuickPickItem.t)
(* vscode.window.showInformationMessage(message, { modal: true }, ...items) *)
| ShowModalMessage (text : string) (items : list string) : Op (option string)
(* vscode.window.withProgress({ location: Notification, title, cancellable }, task):
   settles when the indicator is up; the task follows *)
| WithProgress (title : string) (cancellable : bool) : Op unit
(* vscode.workspace.workspaceFolders, as the fsPath of each folder *)
| WorkspaceFolders : Op (option (list string))
(* vscode.window.activeTextEditor *)
| ActiveTextEditor : Op (option TextEditor)
(* vscode.workspace.openTextDocument({ content, language }) *)
| OpenUntitledDocument (content language : string) : Op TextDocument
(* vscode.workspace.openTextDocument(path) *)
| OpenTextDocument (path : string) : Op TextDocument
(* vscode.window.showTextDocument(doc) *)
| ShowTextDocument (doc : TextDocument) : Op unit
(* vscode.commands.executeCommand(command, ...args) *)
| ExecuteCommand (command : string) (args : list string) : Op unit
(* vscode.window.createWebviewPanel(viewType, title, column, { enableScripts }) *)
| CreateWebviewPanel (viewType title : string) (column : ViewColumn)
    (enableScripts : bool) : Op WebviewPanel
(* panel.webview.html = html *)
| SetWebviewHtml (panel : WebviewPanel) (html : string) : Op unit.

(** Calls whose result the code never reads: notifications that are not
    awaited, progress reports and the console. *)
Inductive Output : Type :=
| ShowInformationMessage (text : string)
| ShowWarningMessage (text : string)
| ShowErrorMessage (text : string)
| ProgressReport (text : string)
| ConsoleError (text : string) (error : JsError).

(** A [Promise<A>] in the making. [Call op k] awaits nothing by itself: [k]
    receives how the request settled, so that [try]/[catch] can be defined by
    recursion on the program. *)
Inductive Prog (A : Type) : Type :=
| Ret (a : A)
| Throw (e : JsError)
| Emit (o : Output) (k : Prog A)
| Call {X : Type} (op : Op X) (k : JsError + X -> Prog A).

Arguments Ret {A} a.
Arguments Throw {A} e.
Arguments Emit {A} o k.
Arguments Call {A X} op k.

Fixpoint bind {A B : Type} (p : Prog A) (f : A -> Prog B) : Prog B :=
  match p with
  | Ret a => f a
  | Throw e => Throw e
  | Emit o k => Emit o (bind k f)
  | Call op k => Call op (fun r => bind (k r) f)
  end.

Declare Scope prog_scope.
Delimit Scope prog_scope with prog.
Bind Scope prog_scope with Prog.

Notation "x ← y ; z" := (bind y (fun x => z))
  (at level 20, y at level 100, z at level 200, only parsing) : prog_scope.
Notation "x ;; z" := (bind x (fun _ => z))
  (at level 100, z at level 200, only parsing, right associativity) : prog_scope.

Open Scope prog_scope.

(** [try { body } catch (error) { handler }]. *)
Fixpoint try_catch {A : Type} (body : Prog A) (handler : JsError -> Prog A) : Prog A :=
  match body with
  | Ret a => Ret a
  | Throw e => handler e
  | Emit o k => Emit o (try_catch k handler)
  | Call op k => Call op (fun r => try_catch (k r) handler)
  end.

(** [await op]: a rejection is rethrown. *)
Definition await {X : Type} (op : Op X) : Prog X :=
  Call op (fun r => match r with inl e => Throw e | inr x => Ret x end).

Definition emit (o : Output) : Prog unit := Emit o (Ret tt).

(** ** Running a program against a host *)

(** What happened during a run: outputs, and requests with how they settled. *)
Inductive Entry : Type :=
| Out (o : Output)
| Req {X : Type} (op : Op X) (settled : JsError + X).

Inductive Outcome (A : Type) : Type :=
| Returned (a : A)
| Rejected (e : JsError).

Arguments Returned {A} a.
Arguments Rejected {A} e.

(** The editor, the user and the backend: every request is answered from the
    current state of the world, which the answer may change. *)
Definition Host (World : Type) : Type :=
  forall X : Type, Op X -> World -> World * (JsError + X).

Fixpoint run {World A : Type} (host : Host World) (p : Prog A) (w : World)
  : list Entry * Outcome A :=
  match p with
  | Ret a => ([], Returned a)
  | Throw e => ([], Rejected e)
  | Emit o k =>
      let (trace, outcome) := run host k w in (Out o :: trace, outcome)
  | Call op k =>
      let (w', settled) := host _ op w in
      let (trace, outcome) := run host (k settled) w' in
      (Req op settled :: trace, outcome)
  end.

(** [P] holds of the trace and outcome of every run, whatever the host answers. *)
Fixpoint always {A : Type} (p : Prog A) (P : list Entry -> Outcome A -> Prop) : Prop :=
  match p with
  | Ret a => P [] (Returned a)
  | Throw e => P [] (Rejected e)
  | Emit o k => always k (fun trace outcome => P (Out o :: trace) outcome)
  | Call op k =>
      forall settled,
        always (k settled) (fun trace outcome => P (Req op settled :: trace) outcome)
  end.

(** ** Observations on traces *)

Module Trace.

(** The response a request for analysis received. *)
Definition analysis (e : Entry) : option AnalyzeResponse.t :=
  match e with
  | Req op settled =>
      match op in Op X return JsError + X -> option AnalyzeResponse.t with
      | HttpPostAnalyze _ =>
          fun s => match s with inr r => Some r | inl _ => None end
      | _ => fun _ => None
      end settled
  | Out _ => None
  end.

(** The first analysis response of a trace. *)
Fixpoint analysed (trace : list Entry) : option AnalyzeResponse.t :=
  match trace with
  | [] => None
  | e :: rest =>
      match analysis e with
      | Some r => Some r
      | None => analysed rest
      end
  end.

Definition is_apply_fix (e : Entry) : bool :=
  match e with
  | Req (HttpPostApplyFix _) _ => true
  | _ => false
  end.

Definition is_quick_pick (e : Entry) : bool :=
  match e with
  | Req (ShowQuickPick _ _ _) _ => true
  | _ => false
  end.

(** Any request to the backend. *)
Definition is_backend_call (e : Entry) : bool :=
  match e with
  | Req HttpGetRoot _ | Req (HttpPostAnalyze _) _ | Req (HttpPostApplyFix _) _
  | Req HttpPostUndo _ | Req (HttpPostUndoFix _) _ | Req (HttpGetHistory _) _
  | Req HttpGetStats _ => true
  | _ => false
  end.

Definition is_create_panel (viewType : string) (e : Entry) : bool :=
  match e with
  | Req (CreateWebviewPanel v _ _ _) _ => String.eqb v viewType
  | _ => false
  end.

(** An item the user picked. *)
Definition picked (e : Entry) : option QuickPickItem.t :=
  match e with
  | Req op settled =>
      match op in Op X return JsError + X -> option QuickPickItem.t with
      | ShowQuickPick _ _ _ =>
          fun s => match s with inr (Some item) => Some item | _ => None end
      | _ => fun _ => None
      end settled
  | Out _ => None
  end.

(** The button a modal dialog was answered with ([None]: dismissed). *)
Definition answered (e : Entry) : option (option string) :=
  match e with
  | Req op settled =>
      match op in Op X return JsError + X -> option (option string) with
      | ShowModalMessage _ _ =>
          fun s => match s with inr a => Some a | inl _ => None end
      | _ => fun _ => None
      end settled
  | Out _ => None
  end.

(** The list a quick pick offered. *)
Definition offered (e : Entry) : option (list QuickPickItem.t) :=
  match e with
  | Req (ShowQuickPick items _ _) _ => Some items
  | _ => None
  end.

(** The fix an apply-fix request carried. *)
Definition applied (e : Entry) : option FixSuggestion.t :=
  match e with
  | Req (HttpPostApplyFix body) _ => Some (ApplyFixRequest.fix_ body)
  | _ => None
  end.

(** The count a history request asked for. *)
Definition history_count (e : Entry) : option Z :=
  match e with
  | Req (HttpGetHistory count) _ => Some count
  | _ => None
  end.

(** The items a history request returned. *)
Definition history (e : Entry) : option (list HistoryItem.t) :=
  match e with
  | Req op settled =>
      match op in Op X return JsError + X -> option (list HistoryItem.t) with
      | HttpGetHistory _ =>
          fun s => match s with
                   | inr r => Some (HistoryResponse.fixes r)
                   | inl _ => None
                   end
      | _ => fun _ => None
      end settled
  | Out _ => None
  end.

(** The page a webview panel was given. *)
Definition page (e : Entry) : option string :=
  match e with
  | Req (SetWebviewHtml _ html) _ => Some html
  | _ => None
  end.

(** The user picked an entry of the quick-pick list. *)
Definition picked_one (e : Entry) : bool :=
  match picked e with Some _ => true | None => false end.

(** The user dismissed the quick-pick list. *)
Definition pick_cancelled (e : Entry) : bool :=
  match e with
  | Req (ShowQuickPick _ _ _) (inr None) => true
  | _ => false
  end.

(** A modal dialog was answered with ["Yes"]. *)
Definition said_yes (e : Entry) : bool :=
  match answered e with
  | Some (Some answer) => String.eqb answer "Yes"
  | _ => false
  end.

(** A modal dialog was answered otherwise, or dismissed. *)
Definition declined (e : Entry) : bool :=
  match answered e with
  | Some (Some answer) => negb (String.eqb answer "Yes")
  | Some None => true
  | None => false
  end.

(** The notifications, progress reports and console lines of a trace. *)
Definition outputs (trace : list Entry) : list Output :=
  omap (fun e => match e with Out o => Some o | Req _ _ => None end) trace.

(** The file a request asked the editor to open. *)
Definition opened (e : Entry) : option string :=
  match e with
  | Req (OpenTextDocument path) _ => Some path
  | _ => None
  end.

(** The exceptions that reach a command: every rejected request except the
    health probe, whose failure [checkHealth] turns into [false]. *)
Fixpoint thrown (trace : list Entry) : list JsError :=
  match trace with
  | [] => []
  | Req HttpGetRoot _ :: rest => thrown rest
  | Req _ (inl error) :: rest => error :: thrown rest
  | _ :: rest => thrown rest
  end.

End Trace.

(* ================================================================== *)
(** * Notifications ([utils/notifications.ts]) *)
(* ================================================================== *)

Module Notifications.

Definition showInfo (message : string) : Prog unit :=
  emit (ShowInformationMessage ("rootCauseAI: " +:+ message)).

Definition showWarning (message : string) : Prog unit :=
  emit (ShowWarningMessage ("rootCauseAI: " +:+ message)).

Definition showError (message : string) : Prog unit :=
  emit (ShowErrorMessage ("rootCauseAI: " +:+ message)).

Definition showProgress {T : Type} (title : string) (task : Prog T) : Prog T :=
  await (WithProgress ("rootCauseAI: " +:+ title) false);; task.

Definition showQuickPick (items : list QuickPickItem.t) (placeHolder : string)
    (ignoreFocusOut : bool) : Prog (option QuickPickItem.t) :=
  await (ShowQuickPick items placeHolder ignoreFocusOut).

Definition showInputBox (prompt placeHolder : string) (ignoreFocusOut : bool)
  : Prog (option string) :=
  await (ShowInputBox prompt placeHolder ignoreFocusOut).

Definition confirm (message : string) : Prog bool :=
  result ← await (ShowModalMessage ("rootCauseAI: " +:+ message) ["Yes"; "No"]);
  Ret (match result with
        | Some answer => String.eqb answer "Yes"
        | None => false
        end).

End Notifications.

(* ================================================================== *)
(** * Backend client ([utils/backendClient.ts]) *)
(* ================================================================== *)

Module BackendClient.

(** The axios instance is determined by the configuration snapshot taken in
      the constructor: [baseURL] is [config.getBackendUrl()], the timeout is
      60000 ms. *)
Record t : Type := mk { config : Config.t }.

Definition baseURL (c : t) : JsValue := Config.getBackendUrl (config c).
Definition timeout : Z := 60000.

Definition checkHealth (c : t) : Prog bool :=
  try_catch
    (response_data ← await HttpGetRoot;
     match Js.get_prop response_data "status" with
     | inl type_error => Throw type_error
     | inr status => Ret (Js.strict_eq_string status "running")
     end)
    (fun error => Ret false).

Definition analyzeError (c : t) (errorLog projectRoot : string)
  : Prog AnalyzeResponse.t :=
  await (HttpPostAnalyze
           (AnalyzeRequest.mk errorLog projectRoot
              (Config.getProvider (config c))
              (Config.getMaxRetries (config c)))).

Definition applyFix (c : t) (fix_ : FixSuggestion.t) (language : string)
    (dryRun : bool) : Prog ApplyFixResponse.t :=
  await (HttpPostApplyFix (ApplyFixRequest.mk fix_ language dryRun)).

Definition undoLastFix (c : t) : Prog UndoResponse.t :=
  await HttpPostUndo.

Definition undoFix (c : t) (fixId : string) : Prog UndoResponse.t :=
  await (HttpPostUndoFix fixId).

Definition getHistory (c : t) (count : Z) : Prog (list HistoryItem.t) :=
  response_data ← await (HttpGetHistory count);
  Ret (HistoryResponse.fixes response_data).

(** The default of the [count] parameter. *)
Definition getHistory_default_count : Z := 10.

Definition getStats (c : t) : Prog Stats.t :=
  await HttpGetStats.

End BackendClient.

(* ================================================================== *)
(** * Fix command ([commands/fixError.ts]) *)
(* ================================================================== *)

Module FixErrorCommand.

Import JsString.

Definition detectLanguage (filePath : string) : string :=
  if endsWith filePath ".py" then "python"
  else if endsWith filePath ".js" || endsWith filePath ".jsx" then "javascript"
  else if endsWith filePath ".ts" || endsWith filePath ".tsx" then "typescript"
  else "python".

Definition escapeHtml (text : string) : string :=
  replaceAll "'" "&#039;"
    (replaceAll (ascii_of_nat 34) "&quot;"
       (replaceAll ">" "&gt;"
          (replaceAll "<" "&lt;"
             (replaceAll "&" "&amp;" text)))).

(** The page of the root-cause panel. *)
Definition rootCauseHtml (analysis : string) : string :=
  ("
            <!DOCTYPE html>
            <html>
            <head>
                <style>
                    body {
                        font-family: var(--vscode-font-family);
                        color: var(--vscode-foreground);
                        padding: 20px;
                    }
                    h1 {
                        color: var(--vscode-textLink-foreground);
                    }
                    .analysis {
                        background: var(--vscode-editor-background);
                        padding: 15px;
                        border-radius: 5px;
                        line-height: 1.6;
                        white-space: pre-wrap;
                    }
                </style>
            </head>
            <body>
                <h1>🧠 Root Cause Analysis</h1>
                <div class=" +:+ dq +:+ "analysis" +:+ dq +:+ ">") +:+ escapeHtml analysis +:+ ("</div>
            </body>
            </html>
        ").

(** [vscode.workspace.workspaceFolders?.[0]?.uri.fsPath || '.'] *)
Definition projectRoot (folders : option (list string)) : string :=
  or_else (folders ≫= head) ".".

(** The unused read of [vscode.window.activeTerminal] is left out. *)
Definition getErrorLog : Prog (option string) :=
  errorLog ← Notifications.showInputBox
               "Paste the error log" "Traceback (most recent call last)..." true;
  Ret errorLog.

Definition showRootCause (analysis : string) : Prog unit :=
  panel ← await (CreateWebviewPanel "rootCauseAnalysis" "Root Cause Analysis"
                   ViewColumnTwo false);
  await (SetWebviewHtml panel (rootCauseHtml analysis)).

Definition showDiff (fix_ : FixSuggestion.t) : Prog unit :=
  originalDoc ← await (OpenUntitledDocument
                         (FixSuggestion.original_snippet fix_)
                         (detectLanguage (FixSuggestion.file_path fix_)));
  fixedDoc ← await (OpenUntitledDocument
                      (FixSuggestion.new_snippet fix_)
                      (detectLanguage (FixSuggestion.file_path fix_)));
  await (ExecuteCommand "vscode.diff"
           [uri originalDoc; uri fixedDoc; "Original ↔ Fixed"]).

Section WithClient.

Context `{Runtime}.
Variable client : BackendClient.t.

Definition applyFix (fix_ : FixSuggestion.t) : Prog unit :=
  try_catch
    (let language := detectLanguage (FixSuggestion.file_path fix_) in
     result ← Notifications.showProgress "Applying fix..."
                (BackendClient.applyFix client fix_ language false);
     if ApplyFixResponse.success result then
       Notifications.showInfo
         ("Fix applied successfully! (ID: "
            +:+ show_optional (ApplyFixResponse.fix_id result) +:+ ")");;
       doc ← await (OpenTextDocument (FixSuggestion.file_path fix_));
       await (ShowTextDocument doc)
     else
       Notifications.showError
         ("Failed to apply fix: " +:+ ApplyFixResponse.message result))
    (fun error =>
       match error_message error with
       | inl type_error => Throw type_error
       | inr message => Notifications.showError ("Error applying fix: " +:+ message)
       end).

(** The text under a quick-pick entry: the confidence as a percentage. *)
Definition confidenceDescription (confidence : float) : string :=
  "Confidence: " +:+ JsNumber.toFixed (confidence * 100)%float 0 +:+ "%".

Definition quickPickItem (index : nat) (fix_ : FixSuggestion.t) : QuickPickItem.t :=
  {| QuickPickItem.label :=
       "$(tools) Fix " +:+ of_nat (index + 1) +:+ ": "
         +:+ FixSuggestion.file_path fix_;
     QuickPickItem.description :=
       confidenceDescription (FixSuggestion.confidence fix_);
     QuickPickItem.detail := FixSuggestion.explanation fix_;
     QuickPickItem.fix_ := fix_ |}.

Definition showAndApplyFixes (fixes : list FixSuggestion.t)
    (rootCause : option string) : Prog unit :=
  let items := imap quickPickItem fixes in
  selected ← Notifications.showQuickPick items "Select a fix to apply" true;
  match selected with
  | None => Ret tt
  | Some selected =>
      showDiff (QuickPickItem.fix_ selected);;
      shouldApply ← Notifications.confirm "Apply this fix to your code?";
      if shouldApply then applyFix (QuickPickItem.fix_ selected)
      else Ret tt
  end.

(** What [execute] does once the analysis has returned. *)
Definition afterAnalysis (result : AnalyzeResponse.t) : Prog unit :=
  if String.eqb (AnalyzeResponse.status result) "failed" then
    Notifications.showError
      (or_else (AnalyzeResponse.error_message result) "Failed to analyze error")
  else
    match AnalyzeResponse.fixes result with
    | None | Some [] =>
        Notifications.showWarning
          "No fixes generated. The error might be too complex.";;
        match AnalyzeResponse.root_cause_analysis result with
        | Some (String c rest) => showRootCause (String c rest)
        | Some EmptyString | None => Ret tt
        end
    | Some fixes =>
        showAndApplyFixes fixes (AnalyzeResponse.root_cause_analysis result)
    end.

Definition execute : Prog unit :=
  try_catch
    (isHealthy ← BackendClient.checkHealth client;
     if negb isHealthy then
       Notifications.showError
         "Backend server is not running. Please start it with: python backend/server.py"
     else
       errorLog ← getErrorLog;
       match errorLog with
       | None | Some EmptyString =>
           Notifications.showWarning "No error log provided"
       | Some errorLog =>
           result ← Notifications.showProgress "Analyzing error..."
                      (emit (ProgressReport "Parsing error...");;
                       folders ← await WorkspaceFolders;
                       result ← BackendClient.analyzeError client errorLog
                                  (projectRoot folders);
                       emit (ProgressReport "Analysis complete!");;
                       Ret result);
           afterAnalysis result
       end)
    (fun error =>
       match error_message error with
       | inl type_error => Throw type_error
       | inr message =>
           Notifications.showError ("Error: " +:+ message);;
           emit (ConsoleError "Fix error command failed:" error)
       end).

End WithClient.

End FixErrorCommand.

(* ================================================================== *)
(** * Explain command ([commands/explainError.ts]) *)
(* ================================================================== *)

Module ExplainErrorCommand.

Import JsString.

Section WithClient.

Context `{Runtime}.
Variable client : BackendClient.t.

Definition frameworkHtml (parsedError : JsValue) : string :=
  if Js.truthy (Js.field parsedError "framework") then
    ("<p><strong>Framework:</strong> ") +:+ ToString (Js.field parsedError "framework") +:+ ("</p>")
  else EmptyString.

Definition parsedErrorHtml (parsedError : JsValue) : string :=
  if Js.truthy parsedError then
    ("
                    <div class=" +:+ dq +:+ "section" +:+ dq +:+ ">
                        <h2>Error Details</h2>
                        <span class=" +:+ dq +:+ "badge ") +:+ ToString (Js.field parsedError "severity")
    +:+ (dq +:+ ">") +:+ ToString (Js.field parsedError "severity")
    +:+ ("</span>
                        <span class=" +:+ dq +:+ "badge info" +:+ dq +:+ ">") +:+ ToString (Js.field parsedError "language")
    +:+ ("</span>
                        <span class=" +:+ dq +:+ "badge info" +:+ dq +:+ ">") +:+ ToString (Js.field parsedError "category")
    +:+ ("</span>
                        <p><strong>Type:</strong> ") +:+ ToString (Js.field parsedError "error_type")
    +:+ ("</p>
                        <p><strong>Message:</strong> ") +:+ ToString (Js.field parsedError "message")
    +:+ ("</p>
                        ") +:+ frameworkHtml parsedError
    +:+ ("
                    </div>
                ")
  else EmptyString.

(** The paragraph that gives the confidence of a fix as a percentage. *)
Definition confidenceHtml (confidence : float) : string :=
  "<p><em>Confidence: "
  +:+ JsNumber.toFixed (confidence * 100)%float 0
  +:+ "%</em></p>".

(** The paragraph that explains a suggested fix. *)
Definition fixHead (i : nat) (fix_ : FixSuggestion.t) : string :=
  ("
                            <p><strong>Fix ") +:+ of_nat (i + 1)
  +:+ (":</strong> ") +:+ FixSuggestion.explanation fix_
  +:+ ("</p>
                            ").

Definition fixFoot : string :=
  ("
                        ").

(** The two paragraphs of one suggested fix. *)
Definition fixHtml (i : nat) (fix_ : FixSuggestion.t) : string :=
  fixHead i fix_ +:+ confidenceHtml (FixSuggestion.confidence fix_) +:+ fixFoot.

Definition fixesHtml (fixes : list FixSuggestion.t) : string :=
  if (0 <? length fixes)%nat then
    ("
                    <div class=" +:+ dq +:+ "section" +:+ dq +:+ ">
                        <h2>Suggested Fixes (") +:+ of_nat (length fixes)
    +:+ (")</h2>
                        ") +:+ join (imap fixHtml fixes)
    +:+ ("
                    </div>
                ")
  else "<p><em>No fixes available</em></p>".

(** [`${result.execution_time?.toFixed(2)}`] *)
Definition executionTimeText (execution_time : option float) : string :=
  match execution_time with
  | Some seconds => JsNumber.toFixed seconds 2
  | None => "undefined"
  end.

(** [`${result.tokens_used}`] *)
Definition tokensUsedText (tokens_used : option float) : string :=
  match tokens_used with
  | Some tokens => Number_toString tokens
  | None => "undefined"
  end.

Definition explanationHtml (result : AnalyzeResponse.t) : string :=
  let parsedError := default JUndefined (AnalyzeResponse.parsed_error result) in
  let rootCause :=
    or_else (AnalyzeResponse.root_cause_analysis result) "Analysis not available" in
  let fixes := default [] (AnalyzeResponse.fixes result) in
  ("
            <!DOCTYPE html>
            <html>
            <head>
                <style>
                    body {
                        font-family: var(--vscode-font-family);
                        color: var(--vscode-foreground);
                        padding: 20px;
                        line-height: 1.6;
                    }
                    h1, h2 {
                        color: var(--vscode-textLink-foreground);
                    }
                    .section {
                        background: var(--vscode-editor-background);
                        padding: 15px;
                        margin: 10px 0;
                        border-radius: 5px;
                    }
                    .badge {
                        display: inline-block;
                        padding: 3px 8px;
                        border-radius: 3px;
                        font-size: 12px;
                        margin: 5px 5px 5px 0;
                    }
                    .error { background: #f14c4c; color: white; }
                    .warning { background: #cca700; color: white; }
                    .info { background: #007acc; color: white; }
                </style>
            </head>
            <body>
                <h1>🔍 Error Explanation</h1>
                
                ") +:+ parsedErrorHtml parsedError
  +:+ ("
                
                <div class=" +:+ dq +:+ "section" +:+ dq +:+ ">
                    <h2>Root Cause Analysis</h2>
                    <p style=" +:+ dq +:+ "white-space: pre-wrap;" +:+ dq +:+ ">") +:+ rootCause
  +:+ ("</p>
                </div>
                
                ") +:+ fixesHtml fixes
  +:+ ("
                
                <div class=" +:+ dq +:+ "section" +:+ dq +:+ ">
                    <h2>Execution Stats</h2>
                    <p>⏱️ Time: ") +:+ executionTimeText (AnalyzeResponse.execution_time result)
  +:+ ("s</p>
                    <p>🪙 Tokens: ") +:+ tokensUsedText (AnalyzeResponse.tokens_used result)
  +:+ ("</p>
                </div>
            </body>
            </html>
        ").

Definition showExplanation (result : AnalyzeResponse.t) : Prog unit :=
  panel ← await (CreateWebviewPanel "errorExplanation" "Error Explanation"
                   ViewColumnTwo false);
  await (SetWebviewHtml panel (explanationHtml result)).

Definition execute : Prog unit :=
  try_catch
    (editor ← await ActiveTextEditor;
     match editor with
     | None => Notifications.showWarning "No active editor"
     | Some editor =>
         match selected_text editor with
         | EmptyString => Notifications.showWarning "Please select an error message"
         | errorLog =>
             result ← Notifications.showProgress "Analyzing error..."
                        (folders ← await WorkspaceFolders;
                         BackendClient.analyzeError client errorLog
                           (FixErrorCommand.projectRoot folders));
             showExplanation result
         end
     end)
    (fun error =>
       match error_message error with
       | inl type_error => Throw type_error
       | inr message => Notifications.showError ("Error: " +:+ message)
       end).

End WithClient.

End ExplainErrorCommand.

(* ================================================================== *)
(** * Undo command ([commands/undoFix.ts]) *)
(* ================================================================== *)

Module UndoFixCommand.

Section WithClient.

Context `{Runtime}.
Variable client : BackendClient.t.

Definition execute : Prog unit :=
  try_catch
    (confirm ← Notifications.confirm "Undo the last fix?";
     if negb confirm then Ret tt
     else
       result ← Notifications.showProgress "Undoing fix..."
                  (BackendClient.undoLastFix client);
       if UndoResponse.success result then
         Notifications.showInfo (UndoResponse.message result)
       else
         Notifications.showError (UndoResponse.message result))
    (fun error =>
       match error_message error with
       | inl type_error => Throw type_error
       | inr message => Notifications.showError ("Error: " +:+ message)
       end).

End WithClient.

End UndoFixCommand.

(* ================================================================== *)
(** * History command ([commands/showHistory.ts]) *)
(* ================================================================== *)

Module ShowHistoryCommand.

Import JsString.

Section WithClient.

Context `{Runtime}.
Variable client : BackendClient.t.

(** One table row. *)
Definition rowHtml (fix_ : HistoryItem.t) : string :=
  ("
                            <tr>
                                <td>de>") +:+ HistoryItem.fix_id fix_
  +:+ ("</code></td>
                                <td>") +:+ HistoryItem.file_path fix_
  +:+ ("</td>
                                <td>") +:+ Date_toLocaleString (HistoryItem.timestamp fix_)
  +:+ ("</td>
                                <td class=" +:+ dq) +:+ (if HistoryItem.reverted fix_ then "reverted" else "active")
  +:+ (dq +:+ ">
                                    ") +:+ (if HistoryItem.reverted fix_ then "🔴 Reverted" else "✅ Active")
  +:+ ("
                                </td>
                            </tr>
                        ").

Definition historyHead : string := ("
            <!DOCTYPE html>
            <html>
            <head>
                <style>
                    body {
                        font-family: var(--vscode-font-family);
                        color: var(--vscode-foreground);
                        padding: 20px;
                    }
                    table {
                        width: 100%;
                        border-collapse: collapse;
                    }
                    th, td {
                        padding: 10px;
                        text-align: left;
                        border-bottom: 1px solid var(--vscode-panel-border);
                    }
                    th {
                        background: var(--vscode-editor-background);
                        font-weight: bold;
                    }
                    .active { color: #4ec9b0; }
                    .reverted { color: #f14c4c; }
                </style>
            </head>
            <body>
                <h1>📜 Fix History</h1>
                <table>
                    <thead>
                        <tr>
                            <th>Fix ID</th>
                            <th>File</th>
                            <th>Timestamp</th>
                            <th>Status</th>
                        </tr>
                    </thead>
                    <tbody>
                        ").
Definition historyFoot : string := ("
                    </tbody>
                </table>
            </body>
            </html>
        ").

Definition getHistoryHtml (history : list HistoryItem.t) : string :=
  historyHead +:+ join (map rowHtml history) +:+ historyFoot.

Definition execute : Prog unit :=
  try_catch
    (history ← Notifications.showProgress "Loading history..."
                 (BackendClient.getHistory client 20);
     if (length history =? 0)%nat then
       Notifications.showInfo "No fix history available"
     else
       panel ← await (CreateWebviewPanel "fixHistory" "Fix History"
                        ViewColumnTwo true);
       await (SetWebviewHtml panel (getHistoryHtml history)))
    (fun error =>
       match error_message error with
       | inl type_error => Throw type_error
       | inr message => Notifications.showError ("Error: " +:+ message)
       end).

End WithClient.

End ShowHistoryCommand.

(* ================================================================== *)
(** * Statistics command ([commands/showStats.ts]) *)
(* ================================================================== *)

Module ShowStatsCommand.

Import JsString.

Section WithClient.

Context `{Runtime}.
Variable client : BackendClient.t.

Definition statsHtml (stats : Stats.t) : string :=
  ("
                <!DOCTYPE html>
                <html>
                <head>
                    <style>
                        body {
                            font-family: var(--vscode-font-family);
                            color: var(--vscode-foreground);
                            padding: 20px;
                        }
                        .stats-grid {
                            display: grid;
                            grid-template-columns: repeat(2, 1fr);
                            gap: 20px;
                            margin-top: 20px;
                        }
                        .stat-card {
                            background: var(--vscode-editor-background);
                            padding: 20px;
                            border-radius: 5px;
                            text-align: center;
                        }
                        .stat-number {
                            font-size: 48px;
                            font-weight: bold;
                            color: var(--vscode-textLink-foreground);
                        }
                        .stat-label {
                            font-size: 14px;
                            margin-top: 10px;
                            opacity: 0.8;
                        }
                    </style>
                </head>
                <body>
                    <h1>📊 rootCauseAI Statistics</h1>
                    <div class=" +:+ dq +:+ "stats-grid" +:+ dq +:+ ">
                        <div class=" +:+ dq +:+ "stat-card" +:+ dq +:+ ">
                            <div class=" +:+ dq +:+ "stat-number" +:+ dq +:+ ">") +:+ Number_toString (Stats.total_fixes stats)
  +:+ ("</div>
                            <div class=" +:+ dq +:+ "stat-label" +:+ dq +:+ ">Total Fixes</div>
                        </div>
                        <div class=" +:+ dq +:+ "stat-card" +:+ dq +:+ ">
                            <div class=" +:+ dq +:+ "stat-number" +:+ dq +:+ ">") +:+ Number_toString (Stats.active_fixes stats)
  +:+ ("</div>
                            <div class=" +:+ dq +:+ "stat-label" +:+ dq +:+ ">Active Fixes</div>
                        </div>
                        <div class=" +:+ dq +:+ "stat-card" +:+ dq +:+ ">
                            <div class=" +:+ dq +:+ "stat-number" +:+ dq +:+ ">") +:+ Number_toString (Stats.reverted_count stats)
  +:+ ("</div>
                            <div class=" +:+ dq +:+ "stat-label" +:+ dq +:+ ">Reverted</div>
                        </div>
                        <div class=" +:+ dq +:+ "stat-card" +:+ dq +:+ ">
                            <div class=" +:+ dq +:+ "stat-number" +:+ dq +:+ ">") +:+ Number_toString (Stats.files_modified stats)
  +:+ ("</div>
                            <div class=" +:+ dq +:+ "stat-label" +:+ dq +:+ ">Files Modified</div>
                        </div>
                    </div>
                </body>
                </html>
            ").

Definition execute : Prog unit :=
  try_catch
    (stats ← Notifications.showProgress "Loading stats..."
               (BackendClient.getStats client);
     panel ← await (CreateWebviewPanel "fixStats" "Statistics"
                      ViewColumnTwo false);
     await (SetWebviewHtml panel (statsHtml stats)))
    (fun error =>
       match error_message error with
       | inl type_error => Throw type_error
       | inr message => Notifications.showError ("Error: " +:+ message)
       end).

End WithClient.

End ShowStatsCommand.


(* ================================================================== *)
(** * Vocabulary of the properties *)
(* ================================================================== *)

(** [path] ends in [suffix]. *)
Definition ends_in (path suffix : string) : Prop :=
  exists stem, path = stem +:+ suffix.

(** The body of a response is an object whose [status] is the string
    ["running"]. *)
Definition status_is_running (data : JsValue) : Prop :=
  exists fields, data = JObj fields /\ Js.assoc "status" fields = Some (JStr "running").



(** Every [target] entry of [trace] comes after some [guard] entry. *)
Definition only_after (guard target : Entry -> bool) (trace : list Entry) : Prop :=
  forall i e, trace !! i = Some e -> target e = true ->
    exists j e', (j < i)%nat /\ trace !! j = Some e' /\ guard e' = true.

(** The same, decided entry by entry. *)
Fixpoint guarded_by (guard target : Entry -> bool) (trace : list Entry) : bool :=
  match trace with
  | [] => true
  | e :: rest => negb (target e) && (guard e || guarded_by guard target rest)
  end.

(** No value thrown into the command is [undefined] or [null]: a handler can
    read the [message] of each. *)
Definition messages_readable (trace : list Entry) : bool :=
  forallb (fun error => negb (Js.nullish error)) (Trace.thrown trace).

(** White space: blanks and line feeds only. *)
Fixpoint blank (text : string) : bool :=
  match text with
  | EmptyString => true
  | String a rest =>
      (Ascii.eqb a " " || Ascii.eqb a (ascii_of_nat 10)) && blank rest
  end.

(** A line feed followed by [n] blanks. *)
Definition indent (n : nat) : string :=
  String (ascii_of_nat 10) (string_of_list_ascii (repeat " "%char n)).

(** [piece] occurs in [text]. *)
Definition occurs_in (piece text : string) : Prop :=
  exists before after, text = before +:+ piece +:+ after.

(** [text] is the [pieces], in this order, with white space before each of
    them and at the end, and nothing else. *)
Fixpoint spaced (pieces : list string) (text : string) : Prop :=
  match pieces with
  | [] => blank text = true
  | piece :: rest =>
      exists space after,
        blank space = true /\
        text = space +:+ piece +:+ after /\
        spaced rest after
  end.

(** The row of the history table for [item], cell by cell: the identifier,
    the file, the time stamp in the locale of the host, and the status. *)
Definition history_row `{Runtime} (item : HistoryItem.t) : list string :=
  ["<tr>";
   "<td>de>" +:+ HistoryItem.fix_id item +:+ "</code></td>";
   "<td>" +:+ HistoryItem.file_path item +:+ "</td>";
   "<td>" +:+ Date_toLocaleString (HistoryItem.timestamp item) +:+ "</td>";
   "<td class=" +:+ JsString.dq
     +:+ (if HistoryItem.reverted item then "reverted" else "active")
     +:+ JsString.dq +:+ ">";
   if HistoryItem.reverted item then "🔴 Reverted" else "✅ Active";
   "</td>";
   "</tr>"].

(** [html] holds a table whose body is one row for each item of [history],
    in the order of [history]. *)
Definition history_table `{Runtime} (history : list HistoryItem.t) (html : string)
  : Prop :=
  exists head middle body tail,
    html = head +:+ "<table>" +:+ middle +:+ "<tbody>" +:+ body
             +:+ "</tbody>" +:+ tail /\
    spaced (flat_map history_row history) body.

(** An error notification. *)
Definition is_error_notification (e : Entry) : bool :=
  match e with
  | Out (ShowErrorMessage _) => true
  | _ => false
  end.

(** Trace and outcome of a run. *)
Definition trace_of {World A : Type} (host : Host World) (p : Prog A) (w : World)
  : list Entry := (run host p w).1.

Definition outcome_of {World A : Type} (host : Host World) (p : Prog A) (w : World)
  : Outcome A := (run host p w).2.

(** The five command handlers the extension registers. *)
Inductive Command : Type :=
| FixError | ExplainError | UndoFix | ShowHistory | ShowStats.

Definition execute `{Runtime} (command : Command) (client : BackendClient.t) : Prog unit :=
  match command with
  | FixError => FixErrorCommand.execute client
  | ExplainError => ExplainErrorCommand.execute client
  | UndoFix => UndoFixCommand.execute client
  | ShowHistory => ShowHistoryCommand.execute client
  | ShowStats => ShowStatsCommand.execute client
  end.

(* ================================================================== *)
(** * Scenarios: scripted hosts *)
(* ================================================================== *)

Module Scenario.

(** A runtime for the examples: numbers and dates print as fixed texts. *)
Definition runtime : Runtime :=
  {| Number_toString := fun _ => "n"; Date_toLocaleString := fun s => s |}.

Definition client : BackendClient.t :=
  BackendClient.mk (Config.mk ∅).

(** How the user and the backend answer, whatever the state. *)
Record t : Type := mk {
  health : JsError + JsValue;
  pasted : option string;
  analysis : JsError + AnalyzeResponse.t;
  choice : option QuickPickItem.t;
  answer : option string;
  applied : JsError + ApplyFixResponse.t;
  undone : JsError + UndoResponse.t;
  history : JsError + HistoryResponse.t;
  stats : JsError + Stats.t;
  editor : option TextEditor
}.

Definition host (s : t) : Host unit :=
  fun X op w =>
    (w,
     match op in Op X return JsError + X with
     | HttpGetRoot => health s
     | HttpPostAnalyze _ => analysis s
     | HttpPostApplyFix _ => applied s
     | HttpPostUndo => undone s
     | HttpPostUndoFix _ => undone s
     | HttpGetHistory _ => history s
     | HttpGetStats => stats s
     | ShowInputBox _ _ _ => inr (pasted s)
     | ShowQuickPick _ _ _ => inr (choice s)
     | ShowModalMessage _ _ => inr (answer s)
     | WithProgress _ _ => inr tt
     | WorkspaceFolders => inr (Some ["/work"])
     | ActiveTextEditor => inr (editor s)
     | OpenUntitledDocument content _ => inr (mkDocument ("untitled:" +:+ content))
     | OpenTextDocument path => inr (mkDocument ("file://" +:+ path))
     | ShowTextDocument _ => inr tt
     | ExecuteCommand _ _ => inr tt
     | CreateWebviewPanel _ _ _ _ => inr (mkPanel 0)
     | SetWebviewHtml _ _ => inr tt
     end).

Definition running : JsValue := JObj [("status", JStr "running")].

Definition a_fix : FixSuggestion.t :=
  FixSuggestion.mk "src/app.py" "x = 1" "x = 2" "use 2" 0.87 None.

Definition unreachable : JsError := mkError "connect ECONNREFUSED 127.0.0.1:8000".

(** Everything answers; the analysis is overridden per scenario. *)
Definition base (response : AnalyzeResponse.t) : t :=
  {| health := inr running;
     pasted := Some "Traceback";
     analysis := inr response;
     choice := None;
     answer := Some "No";
     applied := inr (ApplyFixResponse.mk true "ok" (Some "abc123"));
     undone := inr (UndoResponse.mk true "Reverted");
     history := inr (HistoryResponse.mk []);
     stats := inr (Stats.mk 0 0 0 0);
     editor := Some (mkEditor "TypeError: x") |}.

(** A failed analysis that still lists a fix and gives a message. *)
Definition failed_with_fix : AnalyzeResponse.t :=
  AnalyzeResponse.mk "failed" None None (Some [a_fix])
    (Some 0%float) (Some 0%float) (Some "model unavailable").

(** A successful analysis without fixes whose root cause is the empty string. *)
Definition no_fix_empty_cause : AnalyzeResponse.t :=
  AnalyzeResponse.mk "success" None (Some EmptyString) (Some [])
    (Some 0%float) (Some 0%float) None.

(** A successful analysis without fixes and with a root cause. *)
Definition no_fix_with_cause : AnalyzeResponse.t :=
  AnalyzeResponse.mk "success" None (Some "off by one") (Some [])
    (Some 0%float) (Some 0%float) None.

(** A successful analysis with one fix. *)
Definition one_fix : AnalyzeResponse.t :=
  AnalyzeResponse.mk "success" None None (Some [a_fix])
    (Some 0%float) (Some 0%float) None.

(** The user dismisses the quick pick. *)
Definition pick_dismissed : t := base one_fix.

(** The user picks the fix and confirms. *)
Definition pick_and_confirm : t :=
  {| health := inr running;
     pasted := Some "Traceback";
     analysis := inr one_fix;
     choice := Some (FixErrorCommand.quickPickItem (H := runtime) 0 a_fix);
     answer := Some "Yes";
     applied := inr (ApplyFixResponse.mk true "ok" (Some "abc123"));
     undone := inr (UndoResponse.mk true "Reverted");
     history := inr (HistoryResponse.mk []);
     stats := inr (Stats.mk 0 0 0 0);
     editor := None |}.


(** The history holds two fixes, the older one reverted. *)
Definition two_in_history : t :=
  {| health := inr running;
     pasted := None;
     analysis := inl unreachable;
     choice := None;
     answer := None;
     applied := inl unreachable;
     undone := inl unreachable;
     history :=
       inr (HistoryResponse.mk
              [HistoryItem.mk "b2" "src/app.py" "2024-05-02T10:00:00Z" false;
               HistoryItem.mk "a1" "src/util.py" "2024-05-01T09:00:00Z" true]);
     stats := inl unreachable;
     editor := Some (mkEditor "TypeError: x") |}.

(** The backend cannot be reached for the analysis. *)
Definition analysis_unreachable : t :=
  {| health := inr running;
     pasted := Some "Traceback";
     analysis := inl unreachable;
     choice := None;
     answer := None;
     applied := inl unreachable;
     undone := inl unreachable;
     history := inl unreachable;
     stats := inl unreachable;
     editor := None |}.

End Scenario.


(* ================================================================== *)
(** * Further observations *)
(* ================================================================== *)

Module Html.

(** What [escapeHtml] makes of one character. *)
Definition escape_char (a : ascii) : string :=
  if Ascii.eqb a "&" then "&amp;"
  else if Ascii.eqb a "<" then "&lt;"
  else if Ascii.eqb a ">" then "&gt;"
  else if Ascii.eqb a (ascii_of_nat 34) then "&quot;"
  else if Ascii.eqb a "'" then "&#039;"
  else String a EmptyString.

(** A text escaped character by character, in one pass. *)
Fixpoint escape (text : string) : string :=
  match text with
  | EmptyString => EmptyString
  | String a rest => escape_char a +:+ escape rest
  end.

(** [a] occurs in [text]. *)
Fixpoint occurs (a : ascii) (text : string) : bool :=
  match text with
  | EmptyString => false
  | String b rest => Ascii.eqb b a || occurs a rest
  end.

(** The characters that open or close markup and attribute values. *)
Definition markup : list ascii :=
  ["<"; ">"; ascii_of_nat 34; "'"]%char.

(** The inverse of [escape]: an entity is read back as its character. *)
Fixpoint unescape (fuel : nat) (text : string) : string :=
  match fuel with
  | O => EmptyString
  | S fuel' =>
      match text with
      | EmptyString => EmptyString
      | String "&" (String "a" (String "m" (String "p" (String ";" rest)))) =>
          String "&" (unescape fuel' rest)
      | String "&" (String "l" (String "t" (String ";" rest))) =>
          String "<" (unescape fuel' rest)
      | String "&" (String "g" (String "t" (String ";" rest))) =>
          String ">" (unescape fuel' rest)
      | String "&" (String "q" (String "u" (String "o" (String "t" (String ";" rest))))) =>
          String (ascii_of_nat 34) (unescape fuel' rest)
      | String "&" (String "#" (String "0" (String "3" (String "9" (String ";" rest))))) =>
          String "'" (unescape fuel' rest)
      | String a rest => String a (unescape fuel' rest)
      end
  end.

End Html.

Module Observe.

Definition is_request (e : Entry) : bool :=
  match e with Req _ _ => true | Out _ => false end.

Definition is_probe (e : Entry) : bool :=
  match e with Req HttpGetRoot _ => true | _ => false end.

(** The health probe was answered, and by a body whose [status] is ["running"]. *)
Definition probe_running (e : Entry) : bool :=
  match e with
  | Req op settled =>
      match op in Op X return JsError + X -> bool with
      | HttpGetRoot =>
          fun s => match s with
                   | inr data =>
                       match Js.get_prop data "status" with
                       | inr status => Js.strict_eq_string status "running"
                       | inl _ => false
                       end
                   | inl _ => false
                   end
      | _ => fun _ => false
      end settled
  | Out _ => false
  end.

(** A request other than the health probe. *)
Definition beyond_probe (e : Entry) : bool := is_request e && negb (is_probe e).

(** What the input box returned ([None]: dismissed). *)
Definition pasted (e : Entry) : option (option string) :=
  match e with
  | Req op settled =>
      match op in Op X return JsError + X -> option (option string) with
      | ShowInputBox _ _ _ =>
          fun s => match s with inr a => Some a | inl _ => None end
      | _ => fun _ => None
      end settled
  | Out _ => None
  end.

(** The input box returned a non-empty text. *)
Definition log_pasted (e : Entry) : bool :=
  match pasted e with
  | Some (Some (String _ _)) => true
  | _ => false
  end.

(** The workspace folders the editor reported. *)
Definition folders (e : Entry) : option (option (list string)) :=
  match e with
  | Req op settled =>
      match op in Op X return JsError + X -> option (option (list string)) with
      | WorkspaceFolders =>
          fun s => match s with inr a => Some a | inl _ => None end
      | _ => fun _ => None
      end settled
  | Out _ => None
  end.

(** The body of a request for analysis. *)
Definition analyze_request (e : Entry) : option AnalyzeRequest.t :=
  match e with
  | Req (HttpPostAnalyze body) _ => Some body
  | _ => None
  end.

(** A request to the backend other than the health probe. *)
Definition backend_work (e : Entry) : bool :=
  Trace.is_backend_call e && negb (is_probe e).

(** The diff view was opened. *)
Definition diff_shown (e : Entry) : bool :=
  match e with
  | Req (ExecuteCommand command _) (inr _) => String.eqb command "vscode.diff"
  | _ => false
  end.

(** Content and language of a document opened for the diff. *)
Definition untitled (e : Entry) : option (string * string) :=
  match e with
  | Req (OpenUntitledDocument content language) _ => Some (content, language)
  | _ => None
  end.

Definition is_confirmation (e : Entry) : bool :=
  match e with Req (ShowModalMessage _ _) _ => true | _ => false end.

(** The body of an apply-fix request. *)
Definition apply_request (e : Entry) : option ApplyFixRequest.t :=
  match e with
  | Req (HttpPostApplyFix body) _ => Some body
  | _ => None
  end.

(** How an apply-fix request settled. *)
Definition apply_settled (e : Entry) : option (JsError + ApplyFixResponse.t) :=
  match e with
  | Req op settled =>
      match op in Op X return JsError + X -> option (JsError + ApplyFixResponse.t) with
      | HttpPostApplyFix _ => fun s => Some s
      | _ => fun _ => None
      end settled
  | Out _ => None
  end.

(** The answer to an undo request. *)
Definition undo_response (e : Entry) : option UndoResponse.t :=
  match e with
  | Req op settled =>
      match op in Op X return JsError + X -> option UndoResponse.t with
      | HttpPostUndo =>
          fun s => match s with inr r => Some r | inl _ => None end
      | _ => fun _ => None
      end settled
  | Out _ => None
  end.

(** The answer to a statistics request. *)
Definition stats (e : Entry) : option Stats.t :=
  match e with
  | Req op settled =>
      match op in Op X return JsError + X -> option Stats.t with
      | HttpGetStats =>
          fun s => match s with inr r => Some r | inl _ => None end
      | _ => fun _ => None
      end settled
  | Out _ => None
  end.

(** The active editor the host reported ([None]: there is none). *)
Definition editor (e : Entry) : option (option TextEditor) :=
  match e with
  | Req op settled =>
      match op in Op X return JsError + X -> option (option TextEditor) with
      | ActiveTextEditor =>
          fun s => match s with inr a => Some a | inl _ => None end
      | _ => fun _ => None
      end settled
  | Out _ => None
  end.

(** The text of a notification, of a modal dialog or of a progress title. *)
Definition shown_text (e : Entry) : option string :=
  match e with
  | Out (ShowInformationMessage text) => Some text
  | Out (ShowWarningMessage text) => Some text
  | Out (ShowErrorMessage text) => Some text
  | Req (ShowModalMessage text _) _ => Some text
  | Req (WithProgress title _) _ => Some title
  | _ => None
  end.

(** Whether a progress indicator can be cancelled. *)
Definition cancellable (e : Entry) : option bool :=
  match e with
  | Req (WithProgress _ c) _ => Some c
  | _ => None
  end.

(** The panel a request created, by its view type. *)
Definition panel_type (e : Entry) : option string :=
  match e with
  | Req (CreateWebviewPanel viewType _ _ _) _ => Some viewType
  | _ => None
  end.

(** The requests to the backend a command is written to make. *)
Definition may_call (command : Command) (e : Entry) : bool :=
  match command, e with
  | FixError, Req HttpGetRoot _
  | FixError, Req (HttpPostAnalyze _) _
  | FixError, Req (HttpPostApplyFix _) _
  | ExplainError, Req (HttpPostAnalyze _) _
  | UndoFix, Req HttpPostUndo _
  | ShowHistory, Req (HttpGetHistory _) _
  | ShowStats, Req HttpGetStats _ => true
  | _, _ => false
  end.

Definition is_analysis_request (e : Entry) : bool :=
  match e with Req (HttpPostAnalyze _) _ => true | _ => false end.

Definition is_undo_last (e : Entry) : bool :=
  match e with Req HttpPostUndo _ => true | _ => false end.

Definition is_undo_by_id (e : Entry) : bool :=
  match e with Req (HttpPostUndoFix _) _ => true | _ => false end.

Definition is_history_request (e : Entry) : bool :=
  match e with Req (HttpGetHistory _) _ => true | _ => false end.

Definition is_stats_request (e : Entry) : bool :=
  match e with Req HttpGetStats _ => true | _ => false end.

(** How many entries of a trace satisfy a test. *)
Definition count (test : Entry -> bool) (trace : list Entry) : nat :=
  length (filter (fun e => test e = true) trace).

End Observe.

Module Cases.

(** The backend is not reachable at all. *)
Definition backend_down : Scenario.t :=
  {| Scenario.health := inl Scenario.unreachable;
     Scenario.pasted := Some "Traceback";
     Scenario.analysis := inl Scenario.unreachable;
     Scenario.choice := None;
     Scenario.answer := None;
     Scenario.applied := inl Scenario.unreachable;
     Scenario.undone := inl Scenario.unreachable;
     Scenario.history := inl Scenario.unreachable;
     Scenario.stats := inl Scenario.unreachable;
     Scenario.editor := None |}.

(** The user dismisses the input box. *)
Definition nothing_pasted : Scenario.t :=
  {| Scenario.health := inr Scenario.running;
     Scenario.pasted := None;
     Scenario.analysis := inr Scenario.one_fix;
     Scenario.choice := None;
     Scenario.answer := None;
     Scenario.applied := inl Scenario.unreachable;
     Scenario.undone := inl Scenario.unreachable;
     Scenario.history := inl Scenario.unreachable;
     Scenario.stats := inl Scenario.unreachable;
     Scenario.editor := None |}.

(** The fix is picked and confirmed, and the backend refuses to apply it. *)
Definition apply_refused : Scenario.t :=
  {| Scenario.health := inr Scenario.running;
     Scenario.pasted := Some "Traceback";
     Scenario.analysis := inr Scenario.one_fix;
     Scenario.choice :=
       Some (FixErrorCommand.quickPickItem (H := Scenario.runtime) 0 Scenario.a_fix);
     Scenario.answer := Some "Yes";
     Scenario.applied := inr (ApplyFixResponse.mk false "file changed on disk" None);
     Scenario.undone := inl Scenario.unreachable;
     Scenario.history := inl Scenario.unreachable;
     Scenario.stats := inl Scenario.unreachable;
     Scenario.editor := None |}.

(** The undo is confirmed and the backend has nothing to undo. *)
Definition undo_refused : Scenario.t :=
  {| Scenario.health := inr Scenario.running;
     Scenario.pasted := None;
     Scenario.analysis := inl Scenario.unreachable;
     Scenario.choice := None;
     Scenario.answer := Some "Yes";
     Scenario.applied := inl Scenario.unreachable;
     Scenario.undone := inr (UndoResponse.mk false "No fixes to undo");
     Scenario.history := inl Scenario.unreachable;
     Scenario.stats := inl Scenario.unreachable;
     Scenario.editor := None |}.

End Cases.

(* ================================================================== *)
(** * Entry point ([extension.ts]): the health check at start-up *)
(* ================================================================== *)

Module Startup.

(** The page of the instructions panel. *)
Definition instructionsHtml : string :=
  "
        <!DOCTYPE html>
        <html>
        <body>
            <h1>Start rootCauseAI Backend</h1>
            <p>Open a terminal and run:</p>
            <pre>de>cd /path/to/ai-error-fixer
source .venv/bin/activate
python backend/server.py</code></pre>
            <p>The backend will start at de>http://localhost:8000</code></p>
        </body>
        </html>
    ".

Definition showBackendInstructions : Prog unit :=
  bind
    (await (CreateWebviewPanel "backendInstructions" "Start rootCauseAI Backend"
                   ViewColumnOne false))
    (fun panel => await (SetWebviewHtml panel instructionsHtml)).

(** The asynchronous functions of the entry point await those of the layer
    below and make one request of their own, the warning with buttons
    ([vscode.window.showWarningMessage(text, ...items)], awaited). *)
Inductive Task (A : Type) : Type :=
| Done (a : A)
| Failed (e : JsError)
| Await {X : Type} (p : Prog X) (k : JsError + X -> Task A)
| Warn (text : string) (items : list string) (k : JsError + option string -> Task A).

Arguments Done {A} a.
Arguments Failed {A} e.
Arguments Await {A X} p k.
Arguments Warn {A} text items k.

Fixpoint bind {A B : Type} (t : Task A) (f : A -> Task B) : Task B :=
  match t with
  | Done a => f a
  | Failed e => Failed e
  | Await p k => Await p (fun r => bind (k r) f)
  | Warn text items k => Warn text items (fun r => bind (k r) f)
  end.

Fixpoint try_catch {A : Type} (body : Task A) (handler : JsError -> Task A) : Task A :=
  match body with
  | Done a => Done a
  | Failed e => handler e
  | Await p k => Await p (fun r => try_catch (k r) handler)
  | Warn text items k => Warn text items (fun r => try_catch (k r) handler)
  end.

(** [await p] for an asynchronous function, and a call of a synchronous one. *)
Definition await {X : Type} (p : Prog X) : Task X :=
  Await p (fun r => match r with inl e => Failed e | inr x => Done x end).

Definition showWarningMessage (text : string) (items : list string)
  : Task (option string) :=
  Warn text items (fun r => match r with inl e => Failed e | inr a => Done a end).

(** What happened: the entries of the awaited programs, and the warnings
    with how they were answered. *)
Inductive Event : Type :=
| Inner (e : Entry)
| Warned (text : string) (items : list string) (settled : JsError + option string).

(** How a program of the layer below settled. *)
Definition settle {A : Type} (outcome : Outcome A) : JsError + A :=
  match outcome with
  | Returned a => inr a
  | Rejected e => inl e
  end.

(** [run] that also returns the state in which the program left the world. *)
Fixpoint run_prog {World A : Type} (host : Host World) (p : Prog A) (w : World)
  : World * (list Entry * Outcome A) :=
  match p with
  | Ret a => (w, ([], Returned a))
  | Throw e => (w, ([], Rejected e))
  | Emit o k =>
      let '(w', (trace, outcome)) := run_prog host k w in
      (w', (Out o :: trace, outcome))
  | Call op k =>
      let (w', settled) := host _ op w in
      let '(w'', (trace, outcome)) := run_prog host (k settled) w' in
      (w'', (Req op settled :: trace, outcome))
  end.

(** The user in front of a warning with buttons. *)
Definition Chooser (World : Type) : Type :=
  string -> list string -> World -> World * (JsError + option string).

Fixpoint run {World A : Type} (host : Host World) (chooser : Chooser World)
    (t : Task A) (w : World) : list Event * Outcome A :=
  match t with
  | Done a => ([], Returned a)
  | Failed e => ([], Rejected e)
  | Await p k =>
      let '(w', (trace, outcome)) := run_prog host p w in
      let (events, result) := run host chooser (k (settle outcome)) w' in
      (map Inner trace ++ events, result)
  | Warn text items k =>
      let (w', settled) := chooser text items w in
      let (events, result) := run host chooser (k settled) w' in
      (Warned text items settled :: events, result)
  end.

(** [Q] holds however the awaited program runs. *)
Definition awaited {X : Type} (p : Prog X) (Q : list Entry -> Outcome X -> Prop) : Prop :=
  always p Q.

(** [P] holds of the events and outcome of every run. *)
Fixpoint always {A : Type} (t : Task A) (P : list Event -> Outcome A -> Prop) : Prop :=
  match t with
  | Done a => P [] (Returned a)
  | Failed e => P [] (Rejected e)
  | Await p k =>
      awaited p
        (fun trace outcome =>
           always (k (settle outcome))
             (fun events result => P (map Inner trace ++ events) result))
  | Warn text items k =>
      forall settled,
        always (k settled)
          (fun events result => P (Warned text items settled :: events) result)
  end.

Definition checkBackendHealth (backendClient : BackendClient.t) : Task unit :=
  try_catch
    (bind (await (BackendClient.checkHealth backendClient)) (fun isHealthy =>
     if negb isHealthy then
       bind (showWarningMessage "rootCauseAI backend is not running. Start it now?"
               ["Start Backend"; "Dismiss"]) (fun action =>
       match action with
       | Some choice =>
           if String.eqb choice "Start Backend" then await showBackendInstructions
           else Done tt
       | None => Done tt
       end)
     else Done tt))
    (fun error => Done tt).

(** Events and result of a run of the health check. *)
Definition events_of {World : Type} (host : Host World) (chooser : Chooser World)
    (backendClient : BackendClient.t) (w : World) : list Event :=
  (run host chooser (checkBackendHealth backendClient) w).1.

Definition result_of {World : Type} (host : Host World) (chooser : Chooser World)
    (backendClient : BackendClient.t) (w : World) : Outcome unit :=
  (run host chooser (checkBackendHealth backendClient) w).2.

(** Observations on events. *)
Definition warned (e : Event) : option (option string) :=
  match e with
  | Warned _ _ (inr a) => Some a
  | _ => None
  end.

Definition is_warning (e : Event) : bool :=
  match e with Warned _ _ _ => true | Inner _ => false end.

(** The user chose "Start Backend". *)
Definition chose_start (e : Event) : bool :=
  match e with
  | Warned _ _ (inr (Some choice)) => String.eqb choice "Start Backend"
  | _ => false
  end.

Definition inner (e : Event) : option Entry :=
  match e with Inner x => Some x | Warned _ _ _ => None end.

Definition probe_running (e : Event) : bool :=
  match e with Inner x => Observe.probe_running x | Warned _ _ _ => false end.

Definition is_panel (e : Event) : bool :=
  match e with
  | Inner x => Trace.is_create_panel "backendInstructions" x
  | Warned _ _ _ => false
  end.

(** Every [target] event comes after some [guard] event. *)
Definition only_after (guard target : Event -> bool) (events : list Event) : Prop :=
  forall i e, events !! i = Some e -> target e = true ->
    exists j e', (j < i)%nat /\ events !! j = Some e' /\ guard e' = true.

Fixpoint guarded_by (guard target : Event -> bool) (events : list Event) : bool :=
  match events with
  | [] => true
  | e :: rest => negb (target e) && (guard e || guarded_by guard target rest)
  end.

(** The user always answers the same. *)
Definition fixed_choice (choice : option string) : Chooser unit :=
  fun _ _ w => (w, inr choice).

End Startup.

(* ================================================================== *)
(** * Properties *)
(* ================================================================== *)

(** ** Strings *)

Lemma append_nil_l (t : string) : "" +:+ t = t.
Proof. reflexivity. Qed.

Lemma append_cons (a : ascii) (s t : string) :
  String a s +:+ t = String a (s +:+ t).
Proof. reflexivity. Qed.

Lemma append_length (s t : string) :
  String.length (s +:+ t) = (String.length s + String.length t)%nat.
Proof.
  induction s as [|a s IH]; [reflexivity|].
  rewrite append_cons. simpl. now rewrite IH.
Qed.

Lemma endsWith_nil (suffix : string) :
  JsString.endsWith "" suffix = String.eqb "" suffix.
Proof. unfold JsString.endsWith. now rewrite orb_false_r. Qed.

Lemma endsWith_cons (a : ascii) (s suffix : string) :
  JsString.endsWith (String a s) suffix
  = String.eqb (String a s) suffix || JsString.endsWith s suffix.
Proof. reflexivity. Qed.

Lemma endsWith_ends_in (s suffix : string) :
  JsString.endsWith s suffix = true <-> ends_in s suffix.
Proof.
  unfold ends_in. induction s as [|a s IH].
  - rewrite endsWith_nil, String.eqb_eq. split.
    + intros <-. now exists "".
    + intros [[|b stem] Heq].
      * now rewrite append_nil_l in Heq.
      * rewrite append_cons in Heq. discriminate.
  - rewrite endsWith_cons, orb_true_iff, String.eqb_eq, IH. split.
    + intros [<- | [stem ->]]; [now exists "" | now exists (String a stem)].
    + intros [[|b stem] Heq].
      * left. now rewrite append_nil_l in Heq.
      * right. exists stem. rewrite append_cons in Heq. now injection Heq.
Qed.

(** Of two endings of one string, the shorter is an ending of the longer. *)
Lemma ends_in_comparable (s a b : string) :
  ends_in s a -> ends_in s b -> (String.length a <= String.length b)%nat ->
  ends_in b a.
Proof.
  intros [p1 H1] [p2 H2]. subst s. revert p1 H2.
  induction p2 as [|c p2 IH]; intros p1 H2 Hlen.
  - rewrite append_nil_l in H2. now exists p1.
  - rewrite append_cons in H2. destruct p1 as [|c' p1].
    + rewrite append_nil_l in H2. subst a. simpl in Hlen.
      rewrite append_length in Hlen. lia.
    + rewrite append_cons in H2. injection H2 as _ H2. now apply (IH p1).
Qed.

Lemma endsWith_exclusive (s a b : string) :
  JsString.endsWith s a = true ->
  JsString.endsWith b a = false -> JsString.endsWith a b = false ->
  JsString.endsWith s b = false.
Proof.
  intros Ha Hba Hab. apply endsWith_ends_in in Ha.
  destruct (JsString.endsWith s b) eqn:Hb; [|reflexivity].
  apply endsWith_ends_in in Hb.
  destruct (Nat.le_ge_cases (String.length a) (String.length b)) as [Hle | Hge].
  - apply (ends_in_comparable s a b Ha Hb), endsWith_ends_in in Hle. congruence.
  - apply (ends_in_comparable s b a Hb Ha), endsWith_ends_in in Hge. congruence.
Qed.

Lemma append_assoc (a b c : string) : (a +:+ b) +:+ c = a +:+ (b +:+ c).
Proof.
  induction a as [|x a IH]; [reflexivity|]. rewrite !append_cons. now rewrite IH.
Qed.

Lemma append_empty_r (s : string) : s +:+ "" = s.
Proof.
  induction s as [|a s IH]; [reflexivity|]. rewrite append_cons. now rewrite IH.
Qed.

(** C7. [detectLanguage] is a total function of the path alone: a path ending
    in [.py] maps to ["python"], one ending in [.js] or [.jsx] to
    ["javascript"], one ending in [.ts] or [.tsx] to ["typescript"], and every
    other path, such as ["a.txt"], to the default ["python"]. *)
Theorem detectLanguage_by_suffix (filePath : string) :
  (ends_in filePath ".py" -> FixErrorCommand.detectLanguage filePath = "python") /\
  (ends_in filePath ".js" \/ ends_in filePath ".jsx" ->
   FixErrorCommand.detectLanguage filePath = "javascript") /\
  (ends_in filePath ".ts" \/ ends_in filePath ".tsx" ->
   FixErrorCommand.detectLanguage filePath = "typescript") /\
  (~ ends_in filePath ".py" -> ~ ends_in filePath ".js" ->
   ~ ends_in filePath ".jsx" -> ~ ends_in filePath ".ts" ->
   ~ ends_in filePath ".tsx" ->
   FixErrorCommand.detectLanguage filePath = "python") /\
  FixErrorCommand.detectLanguage "a.txt" = "python".
Proof.
  unfold FixErrorCommand.detectLanguage.
  repeat split.
  - intros H. apply endsWith_ends_in in H. now rewrite H.
  - intros H.
    assert (Hpy : JsString.endsWith filePath ".py" = false).
    { destruct H as [H | H]; apply endsWith_ends_in in H;
        apply (endsWith_exclusive _ _ _ H); reflexivity. }
    rewrite Hpy.
    destruct H as [H | H]; apply endsWith_ends_in in H; rewrite H;
      [reflexivity | now rewrite orb_true_r].
  - intros H.
    assert (Hno : JsString.endsWith filePath ".py" = false /\
                  JsString.endsWith filePath ".js" = false /\
                  JsString.endsWith filePath ".jsx" = false).
    { destruct H as [H | H]; apply endsWith_ends_in in H;
        repeat split; apply (endsWith_exclusive _ _ _ H); reflexivity. }
    destruct Hno as (-> & -> & ->). simpl.
    destruct H as [H | H]; apply endsWith_ends_in in H; rewrite H;
      [reflexivity | now rewrite orb_true_r].
  - intros Hpy Hjs Hjsx Hts Htsx.
    rewrite <- endsWith_ends_in in Hpy, Hjs, Hjsx, Hts, Htsx.
    apply not_true_is_false in Hpy, Hjs, Hjsx, Hts, Htsx.
    now rewrite Hpy, Hjs, Hjsx, Hts, Htsx.
Qed.

Lemma detectLanguage_by_suffix_witness :
  FixErrorCommand.detectLanguage "src/App.tsx" = "typescript".
Proof.
  apply (proj1 (proj2 (proj2 (detectLanguage_by_suffix "src/App.tsx")))).
  right. exists "src/App". reflexivity.
Defined.

(** ** Configuration *)

Lemma or_falsy (a b : JsValue) : Js.truthy a = false -> Js.or a b = b.
Proof. unfold Js.or. now intros ->. Qed.

Lemma or_truthy (a b : JsValue) : Js.truthy a = true -> Js.or a b = a.
Proof. unfold Js.or. now intros ->. Qed.

Lemma get_insert (settings : gmap string JsValue) (key : string) (v : JsValue) :
  Config.get (Config.mk (<[key := v]> settings)) key = v.
Proof. unfold Config.get. simpl. now rewrite lookup_insert_eq. Qed.

(** C10. Every accessor of [Config] returns its hard-coded default whenever
    the stored value is falsy, not only when the setting is absent:
    [getMaxRetries] is 2 for a stored 0, [getBackendUrl] is
    ["http://localhost:8000"] and [getProvider] is ["gemini"] for a stored
    empty string; a truthy stored value is returned as it is. *)
Theorem Config_defaults_on_falsy (c : Config.t) :
  (Js.truthy (Config.get c "backendUrl") = false ->
   Config.getBackendUrl c = JStr "http://localhost:8000") /\
  (Js.truthy (Config.get c "provider") = false ->
   Config.getProvider c = JStr "gemini") /\
  (Js.truthy (Config.get c "maxRetries") = false ->
   Config.getMaxRetries c = JNum 2) /\
  (Js.truthy (Config.get c "autoStartBackend") = false ->
   Config.getAutoStartBackend c = JBool false) /\
  (forall key, Config.config c !! key = None ->
     Js.truthy (Config.get c key) = false) /\
  (forall settings,
     Config.getMaxRetries (Config.mk (<["maxRetries" := JNum 0]> settings)) = JNum 2) /\
  (forall settings,
     Config.getBackendUrl (Config.mk (<["backendUrl" := JStr ""]> settings))
     = JStr "http://localhost:8000") /\
  (forall settings,
     Config.getProvider (Config.mk (<["provider" := JStr ""]> settings))
     = JStr "gemini") /\
  (Js.truthy (Config.get c "backendUrl") = true ->
   Config.getBackendUrl c = Config.get c "backendUrl") /\
  (Js.truthy (Config.get c "provider") = true ->
   Config.getProvider c = Config.get c "provider") /\
  (Js.truthy (Config.get c "maxRetries") = true ->
   Config.getMaxRetries c = Config.get c "maxRetries").
Proof.
  unfold Config.getBackendUrl, Config.getProvider, Config.getMaxRetries,
    Config.getAutoStartBackend.
  repeat split; try (intros; now apply or_falsy); try (intros; now apply or_truthy).
  - intros key Hkey. unfold Config.get. now rewrite Hkey.
  - intros settings. now rewrite get_insert.
  - intros settings. now rewrite get_insert.
  - intros settings. now rewrite get_insert.
Qed.

Lemma Config_defaults_on_falsy_witness :
  Config.getMaxRetries (Config.mk {["maxRetries" := JNum 0]}) = JNum 2.
Proof.
  apply (proj1 (proj2 (proj2
           (Config_defaults_on_falsy (Config.mk {["maxRetries" := JNum 0]}))))).
  vm_compute. reflexivity.
Defined.

(** ** Numbers: the product of a confidence and 100 *)


















Section Percent.

Context {runtime : Runtime}.


End Percent.

(** ** Runs *)

Lemma always_run {World A : Type} (host : Host World) (p : Prog A)
    (P : list Entry -> Outcome A -> Prop) :
  always p P -> forall w, P (run host p w).1 (run host p w).2.
Proof.
  revert P. induction p as [a | e | o k IH | X op k IH]; intros P HP w; simpl in *.
  - exact HP.
  - exact HP.
  - specialize (IH _ HP w). now destruct (run host k w).
  - destruct (host X op w) as [w' settled].
    specialize (IH settled _ (HP settled) w').
    now destruct (run host (k settled) w').
Qed.

(** ** Backend client *)

Lemma running_iff (data : JsValue) (status : JsValue) :
  Js.get_prop data "status" = inr status ->
  (Js.strict_eq_string status "running" = true <-> status_is_running data).
Proof.
  unfold status_is_running.
  destruct data as [| |b|x|s|items|fields]; simpl; try discriminate;
    intros [= <-]; simpl.
  1-4: split; [discriminate | intros (fields & Hobj & _); discriminate].
  split.
  - destruct (Js.assoc "status" fields) as [[| |b|x|s|items|fs]|] eqn:Hfield;
      simpl; try discriminate.
    intros Heq. apply String.eqb_eq in Heq. subst s. now exists fields.
  - intros (fields' & [= <-] & ->). reflexivity.
Qed.

(** C2. [checkHealth] never throws: when the GET / request fails at the
    transport level it returns [false], and when a response is received it
    returns [true] if and only if the [status] field of the body is exactly
    the string ["running"]. *)
Theorem checkHealth_never_throws {World : Type} (host : Host World)
    (client : BackendClient.t) (w : World) :
  let settled := (host _ HttpGetRoot w).2 in
  let result := run host (BackendClient.checkHealth client) w in
  result.1 = [Req HttpGetRoot settled] /\
  (forall e, result.2 <> Rejected e) /\
  (forall e, settled = inl e -> result.2 = Returned false) /\
  (forall data, settled = inr data ->
     exists healthy, result.2 = Returned healthy /\
                     (healthy = true <-> status_is_running data)).
Proof.
  unfold BackendClient.checkHealth. simpl.
  destruct (host JsValue HttpGetRoot w) as [w' [e | data]]; simpl.
  - split; [reflexivity | split; [discriminate | split]].
    + reflexivity.
    + discriminate.
  - destruct (Js.get_prop data "status") as [type_error | status] eqn:Hstatus; simpl;
      (split; [reflexivity | split; [discriminate | split; [discriminate|]]]).
    + intros data' [= <-]. exists false. split; [reflexivity|].
      split; [discriminate|].
      intros (fields & -> & _). discriminate.
    + intros data' [= <-]. eexists. split; [reflexivity|].
      now apply running_iff.
Qed.

Lemma checkHealth_never_throws_witness :
  (run (Scenario.host (Scenario.base Scenario.one_fix))
     (BackendClient.checkHealth Scenario.client) tt).2 = Returned true.
Proof.
  destruct (checkHealth_never_throws
              (Scenario.host (Scenario.base Scenario.one_fix)) Scenario.client tt)
    as (_ & _ & _ & Hreceived).
  destruct (Hreceived Scenario.running eq_refl) as (healthy & -> & Hiff).
  f_equal. apply Hiff. exists [("status", JStr "running")]. split; reflexivity.
Defined.

(** ** Exploring every run of a command *)

#[local] Arguments FixErrorCommand.rootCauseHtml : simpl never.
#[local] Arguments FixErrorCommand.quickPickItem : simpl never.
#[local] Arguments FixErrorCommand.detectLanguage : simpl never.
#[local] Arguments FixErrorCommand.projectRoot : simpl never.
#[local] Arguments ExplainErrorCommand.explanationHtml : simpl never.
#[local] Arguments ShowHistoryCommand.getHistoryHtml : simpl never.
#[local] Arguments ShowStatsCommand.statsHtml : simpl never.
#[local] Arguments imap : simpl never.
#[local] Arguments Js.get_prop : simpl never.
#[local] Arguments Js.strict_eq_string : simpl never.
#[local] Arguments JsString.or_else : simpl never.
#[local] Arguments Js.nullish : simpl never.
#[local] Arguments error_message : simpl never.

(** One step of a symbolic run: a request settles either way, a test of the
    program goes either way. *)
Ltac explore_step :=
  lazymatch goal with
  | |- forall settled : _ + _, _ => intros [?error | ?value]
  | |- always ?p _ =>
      match p with
      | context [match ?x with _ => _ end] => is_var x; destruct x
      | context [if negb ?b then _ else _] => destruct b eqn:?
      | context [match ?x with _ => _ end] => destruct x eqn:?
      end
  end.

Ltac explore :=
  repeat (simpl; explore_step); simpl;
  repeat match goal with u : unit |- _ => destruct u end.

Ltac unfold_commands :=
  unfold execute, FixErrorCommand.execute, FixErrorCommand.afterAnalysis,
    FixErrorCommand.showAndApplyFixes, FixErrorCommand.applyFix,
    FixErrorCommand.showDiff, FixErrorCommand.showRootCause,
    FixErrorCommand.getErrorLog,
    ExplainErrorCommand.execute, ExplainErrorCommand.showExplanation,
    UndoFixCommand.execute, ShowHistoryCommand.execute, ShowStatsCommand.execute,
    BackendClient.checkHealth, BackendClient.analyzeError, BackendClient.applyFix,
    BackendClient.undoLastFix, BackendClient.getHistory, BackendClient.getStats,
    Notifications.confirm, Notifications.showProgress, Notifications.showQuickPick,
    Notifications.showInputBox, Notifications.showInfo, Notifications.showWarning,
    Notifications.showError, emit, await.

(** Find an entry in a trace that is known entry by entry. *)
Ltac find_entry := simpl; repeat first [left; reflexivity | right].

(** Prove a property of the trace and outcome of a run by exploring every
    run of the program. *)
Ltac by_exploring :=
  unfold trace_of, outcome_of;
  match goal with
  | |- context [run ?h ?p ?w] =>
      pattern (run h p w).1, (run h p w).2;
      match goal with
      | |- ?P _ _ => refine (always_run h p P _ w)
      end
  end;
  unfold_commands; explore.

(** ** Reading the message of a caught value *)

Lemma error_message_mkError `{Runtime} (m : string) :
  error_message (mkError m) = inr m.
Proof. reflexivity. Qed.

Lemma error_message_thrown `{Runtime} (error type_error : JsError) :
  error_message error = inl type_error ->
  Js.nullish error = true /\
  Js.get_prop error "message" = inl type_error /\
  exists m, type_error = mkError m.
Proof.
  unfold error_message.
  destruct error; cbn; intros [= <-]; repeat split; eexists; reflexivity.
Qed.

Lemma error_message_read `{Runtime} (error : JsError) (text : string) :
  error_message error = inr text ->
  Js.nullish error = false /\ text = ToString (Js.field error "message").
Proof.
  unfold error_message.
  destruct error; cbn; intros [= <-]; split; reflexivity.
Qed.

(** What the exploration learnt about the caught values. *)
Ltac read_messages :=
  repeat match goal with
    | H : Js.nullish (mkError _) = true |- _ =>
        cbv in H; discriminate H
    | H : error_message (mkError _) = inl _ |- _ =>
        rewrite error_message_mkError in H; discriminate H
    | H : error_message (mkError _) = inr _ |- _ =>
        rewrite error_message_mkError in H; injection H as <-
    | H : error_message _ = inl _ |- _ =>
        let Hnullish := fresh "Hnullish" in
        let Hread := fresh "Hread" in
        let m := fresh "m" in
        apply error_message_thrown in H as (Hnullish & Hread & m & ->)
    | H : error_message _ = inr _ |- _ =>
        let Hnullish := fresh "Hnullish" in
        apply error_message_read in H as (Hnullish & ->)
    end;
  unfold messages_readable; simpl;
  repeat match goal with
    | H : Js.nullish _ = _ |- _ => rewrite H
    end;
  simpl.

Lemma or_else_spec (a : option string) (b : string) :
  (forall m, a = Some m -> m <> "" -> JsString.or_else a b = m) /\
  (a = None \/ a = Some "" -> JsString.or_else a b = b).
Proof.
  unfold JsString.or_else. split.
  - intros m -> Hm. now destruct m.
  - now intros [-> | ->].
Qed.

Lemma items_in_server_order (f : nat -> FixSuggestion.t -> QuickPickItem.t)
    (fixes : list FixSuggestion.t) :
  (forall i x, QuickPickItem.fix_ (f i x) = x) ->
  map QuickPickItem.fix_ (imap f fixes) = fixes.
Proof.
  revert f. induction fixes as [|x fixes IH]; intros f Hf; [reflexivity|].
  rewrite imap_cons, map_cons, Hf. f_equal. apply IH. intros i y. apply Hf.
Qed.

(** ** Fix command *)

Section FixCommand.

Context `{Runtime}.
Variable client : BackendClient.t.

Lemma fix_after_failed_analysis :
  always (FixErrorCommand.execute client)
    (fun trace outcome =>
       forall r, Trace.analysed trace = Some r ->
         AnalyzeResponse.status r = "failed" ->
         outcome = Returned tt /\
         existsb Trace.is_quick_pick trace = false /\
         existsb Trace.is_apply_fix trace = false /\
         Trace.outputs trace =
           [ProgressReport "Parsing error...";
            ProgressReport "Analysis complete!";
            ShowErrorMessage
              ("rootCauseAI: "
                 +:+ JsString.or_else (AnalyzeResponse.error_message r)
                       "Failed to analyze error")] /\
         last trace =
           Some (Out (ShowErrorMessage
                        ("rootCauseAI: "
                           +:+ JsString.or_else (AnalyzeResponse.error_message r)
                                 "Failed to analyze error")))).
Proof.
  unfold_commands. explore.
  all: try (intros r; discriminate).
  all: intros r [= <-] Hfailed.
  all: try (rewrite Hfailed in *; discriminate).
  all: repeat split; reflexivity.
Qed.

Lemma fix_without_fixes :
  always (FixErrorCommand.execute client)
    (fun trace outcome =>
       forall r, Trace.analysed trace = Some r ->
         AnalyzeResponse.status r <> "failed" ->
         AnalyzeResponse.fixes r = None \/ AnalyzeResponse.fixes r = Some [] ->
         (messages_readable trace = true -> outcome = Returned tt) /\
         In (Out (ShowWarningMessage
                    "rootCauseAI: No fixes generated. The error might be too complex."))
            trace /\
         (existsb (Trace.is_create_panel "rootCauseAnalysis") trace = true <->
          exists c rest,
            AnalyzeResponse.root_cause_analysis r = Some (String c rest)) /\
         (forall html, In html (omap Trace.page trace) ->
            exists analysis,
              AnalyzeResponse.root_cause_analysis r = Some analysis /\
              html = FixErrorCommand.rootCauseHtml analysis) /\
         existsb Trace.is_quick_pick trace = false /\
         existsb Trace.is_apply_fix trace = false).
Proof.
  unfold_commands. explore.
  all: try (intros r; discriminate).
  all: intros r [= <-] Hstatus Hfixes.
  all: try (exfalso; apply Hstatus; now apply String.eqb_eq).
  all: try (exfalso; destruct Hfixes; congruence).
  all: read_messages.
  all: (split; [first [reflexivity | discriminate]|]); (split; [find_entry|]).
  all: repeat split; try discriminate; eauto.
  all: try (intros (c & rest & Hc); congruence).
  all: try solve [intros html [<- | []]; eauto].
  all: intros html [].
Qed.

Lemma fix_apply_is_guarded :
  always (FixErrorCommand.execute client)
    (fun trace outcome =>
       (messages_readable trace = true -> outcome = Returned tt) /\
       guarded_by Trace.picked_one Trace.is_apply_fix trace = true /\
       guarded_by Trace.said_yes Trace.is_apply_fix trace = true /\
       (existsb Trace.pick_cancelled trace = true ->
        existsb Trace.is_apply_fix trace = false /\ outcome = Returned tt) /\
       (existsb Trace.declined trace = true ->
        existsb Trace.is_apply_fix trace = false /\ outcome = Returned tt) /\
       (forall items, In items (omap Trace.offered trace) ->
          exists r fixes,
            Trace.analysed trace = Some r /\
            AnalyzeResponse.fixes r = Some fixes /\
            map QuickPickItem.fix_ items = fixes) /\
       (forall applied, In applied (omap Trace.applied trace) ->
          exists item, In item (omap Trace.picked trace) /\
                       applied = QuickPickItem.fix_ item)).
Proof.
  unfold_commands. explore.
  all: unfold Trace.said_yes, Trace.declined; simpl.
  all: repeat match goal with
         | Hyes : String.eqb _ "Yes" = _ |- _ => rewrite Hyes
         end; simpl.
  all: read_messages.
  all: repeat split; try reflexivity; try discriminate.
  all: try solve [intros _; split; reflexivity].
  all: try solve [intros ? []].
  all: try solve [intros items [<- | []]; eexists; eexists;
                  split; [reflexivity | split; [eassumption|]];
                  apply items_in_server_order; intros; reflexivity].
  all: intros applied [<- | []]; eexists; split; [left; reflexivity | reflexivity].
Qed.

End FixCommand.

(** ** The other commands *)

Section OtherCommands.

Context `{Runtime}.
Variable client : BackendClient.t.

Lemma undo_is_guarded :
  always (UndoFixCommand.execute client)
    (fun trace outcome =>
       (messages_readable trace = true -> outcome = Returned tt) /\
       guarded_by Trace.said_yes Trace.is_backend_call trace = true /\
       (existsb Trace.declined trace = true ->
        existsb Trace.is_backend_call trace = false /\
        length trace = 1%nat /\
        outcome = Returned tt)).
Proof.
  unfold_commands. explore.
  all: unfold Trace.said_yes, Trace.declined; simpl.
  all: repeat match goal with
         | Hyes : String.eqb _ "Yes" = _ |- _ => rewrite Hyes
         end; simpl.
  all: read_messages.
  all: repeat split; try reflexivity; discriminate.
Qed.

Lemma history_asks_for_twenty :
  always (ShowHistoryCommand.execute client)
    (fun trace outcome =>
       (messages_readable trace = true -> outcome = Returned tt) /\
       (exists settled rest,
          trace = Req (WithProgress "rootCauseAI: Loading history..." false) settled :: rest /\
          match settled with
          | inl _ => existsb Trace.is_backend_call rest = false
          | inr _ =>
              exists answer rest',
                rest = Req (HttpGetHistory 20) answer :: rest' /\
                existsb Trace.is_backend_call rest' = false
          end) /\
       (forall history, In history (omap Trace.history trace) ->
          (history = [] ->
           outcome = Returned tt /\
           In (Out (ShowInformationMessage "rootCauseAI: No fix history available"))
              trace /\
           existsb (Trace.is_create_panel "fixHistory") trace = false /\
           omap Trace.page trace = []) /\
          (history <> [] ->
           existsb (Trace.is_create_panel "fixHistory") trace = true /\
           (forall html, In html (omap Trace.page trace) ->
              html = ShowHistoryCommand.getHistoryHtml history) /\
           (Trace.thrown trace = [] ->
            omap Trace.page trace = [ShowHistoryCommand.getHistoryHtml history]))) /\
       (existsb (Trace.is_create_panel "fixHistory") trace = true ->
        exists history, In history (omap Trace.history trace) /\ history <> [])).
Proof.
  unfold_commands. explore.
  all: read_messages.
  all: split; [first [reflexivity | discriminate]|].
  all: split; [eexists; eexists; split; [reflexivity|]; simpl;
               try reflexivity; eexists; eexists; split; reflexivity|].
  all: match goal with
       | Hlen : (length ?l =? 0)%nat = true |- _ =>
           apply Nat.eqb_eq, nil_length_inv in Hlen
       | Hlen : (length ?l =? 0)%nat = false |- _ =>
           apply Nat.eqb_neq in Hlen
       | _ => idtac
       end.
  all: split; [|first [discriminate
                      | intros _; eexists; split; [left; reflexivity|];
                        intros Hnil; rewrite Hnil in *; simpl in *; congruence]].
  all: try solve [intros ? []].
  all: intros history [<- | []].
  all: split; intros Hhistory.
  all: try (exfalso; rewrite Hhistory in *; simpl in *; congruence).
  all: try (exfalso; congruence).
  all: repeat split; try reflexivity; try find_entry; try discriminate.
  all: try solve [intros ? []].
  all: intros html [<- | []]; reflexivity.
Qed.

Lemma commands_catch_what_they_can_read (command : Command) :
  always (execute command client)
    (fun trace outcome =>
       (messages_readable trace = true -> outcome = Returned tt) /\
       (forall error, In error (Trace.thrown trace) -> Js.nullish error = false ->
          In (Out (ShowErrorMessage
                     ("rootCauseAI: Error: "
                        +:+ ToString (Js.field error "message")))) trace \/
          In (Out (ShowErrorMessage
                     ("rootCauseAI: Error applying fix: "
                        +:+ ToString (Js.field error "message")))) trace) /\
       (forall error, In error (Trace.thrown trace) -> Js.nullish error = true ->
          exists type_error,
            Js.get_prop error "message" = inl type_error /\
            (outcome = Rejected type_error \/
             In (Out (ShowErrorMessage
                        ("rootCauseAI: Error: "
                           +:+ ToString (Js.field type_error "message")))) trace)) /\
       (forall e, outcome = Rejected e ->
          existsb is_error_notification trace = false /\
          exists error,
            In error (Trace.thrown trace) /\
            Js.nullish error = true /\
            Js.get_prop error "message" = inl e)).
Proof.
  destruct command; unfold_commands; explore.
  all: read_messages.
  all: split; [first [reflexivity | discriminate]|].
  all: split; [intros e Hin Hn; repeat (destruct Hin as [<- | Hin]);
               try contradiction; try congruence;
               first [solve [left; find_entry] | solve [right; find_entry]]|].
  all: split; [intros e Hin Hn; repeat (destruct Hin as [<- | Hin]);
               try contradiction; try congruence;
               eexists; (split; [eassumption|]);
               first [solve [left; reflexivity] | solve [right; find_entry]]|].
  all: intros e; try discriminate.
  all: intros [= <-]; split; [reflexivity|].
  all: eexists; split; [find_entry|]; split; assumption.
Qed.

End OtherCommands.

(** ** The properties of the specification *)

Lemma guarded_by_only_after (guard target : Entry -> bool) (trace : list Entry) :
  guarded_by guard target trace = true -> only_after guard target trace.
Proof.
  unfold only_after. induction trace as [|e0 rest IH]; intros Hg i e Hi He.
  - destruct i; discriminate.
  - simpl in Hg. apply andb_true_iff in Hg as [Hnot Hg].
    destruct i as [|i]; simpl in Hi.
    + injection Hi as ->. rewrite He in Hnot. discriminate.
    + apply orb_true_iff in Hg as [Hguard | Hrest].
      * exists 0%nat, e0. repeat split; [lia | assumption].
      * destruct (IH Hrest i e Hi He) as (j & e' & Hlt & Hj & Hguard).
        exists (S j), e'. repeat split; [lia | assumption | assumption].
Qed.

Section Claims.

Context {runtime : Runtime} {World : Type}.
Variables (host : Host World) (client : BackendClient.t) (w : World).

(** C1. When the analysis response has [status] equal to ["failed"], the Fix
    command shows one error notification, its only notification, and
    returns: no quick pick is presented and no apply-fix request is made,
    whatever [fixes] holds. The notification ends with [error_message] when
    it is present: it is the product prefix followed by [error_message] when
    that is a non-empty string, and the prefix followed by "Failed to analyze
    error" when it is absent or empty. *)
Theorem fix_failed_analysis_shows_error (r : AnalyzeResponse.t) :
  Trace.analysed (trace_of host (FixErrorCommand.execute client) w) = Some r ->
  AnalyzeResponse.status r = "failed" ->
  outcome_of host (FixErrorCommand.execute client) w = Returned tt /\
  existsb Trace.is_quick_pick (trace_of host (FixErrorCommand.execute client) w) = false /\
  existsb Trace.is_apply_fix (trace_of host (FixErrorCommand.execute client) w) = false /\
  exists text,
    Trace.outputs (trace_of host (FixErrorCommand.execute client) w)
    = [ProgressReport "Parsing error...";
       ProgressReport "Analysis complete!";
       ShowErrorMessage text] /\
    last (trace_of host (FixErrorCommand.execute client) w)
    = Some (Out (ShowErrorMessage text)) /\
    (forall m, AnalyzeResponse.error_message r = Some m ->
       exists before, text = before +:+ m) /\
    (forall m, AnalyzeResponse.error_message r = Some m -> m <> "" ->
       text = "rootCauseAI: " +:+ m) /\
    (AnalyzeResponse.error_message r = None \/
     AnalyzeResponse.error_message r = Some "" ->
     text = "rootCauseAI: Failed to analyze error").
Proof.
  intros Hr Hfailed.
  destruct (always_run host _ _ (fix_after_failed_analysis client) w r Hr Hfailed)
    as (Hout & Hpick & Happly & Houtputs & Hlast).
  repeat split; try assumption.
  eexists. split; [exact Houtputs|]. split; [exact Hlast|].
  destruct (or_else_spec (AnalyzeResponse.error_message r) "Failed to analyze error")
    as [Hsome Hnone].
  repeat split.
  - intros m Hm. destruct (String.eqb_spec m "") as [-> | Hne].
    + eexists. symmetry. apply append_empty_r.
    + exists "rootCauseAI: ". now rewrite (Hsome m Hm Hne).
  - intros m Hm Hne. now rewrite (Hsome m Hm Hne).
  - intros Hm. now rewrite (Hnone Hm).
Qed.

(** C3, as the code has it. When the analysis response has a [status] other
    than ["failed"] and no fixes (an empty or absent list), the Fix command
    shows the warning, requests a root-cause panel exactly when
    [root_cause_analysis] is present and not the empty string, gives that
    panel the page of the analysis, and returns without presenting a quick
    pick and without an apply-fix request. It returns in every run in which
    the editor, asked for the panel, throws nothing, or throws a value other
    than [undefined] and [null] (see C4). *)
Theorem fix_without_fixes_warns (r : AnalyzeResponse.t) :
  Trace.analysed (trace_of host (FixErrorCommand.execute client) w) = Some r ->
  AnalyzeResponse.status r <> "failed" ->
  AnalyzeResponse.fixes r = None \/ AnalyzeResponse.fixes r = Some [] ->
  (messages_readable (trace_of host (FixErrorCommand.execute client) w) = true ->
   outcome_of host (FixErrorCommand.execute client) w = Returned tt) /\
  In (Out (ShowWarningMessage
             "rootCauseAI: No fixes generated. The error might be too complex."))
     (trace_of host (FixErrorCommand.execute client) w) /\
  (existsb (Trace.is_create_panel "rootCauseAnalysis")
     (trace_of host (FixErrorCommand.execute client) w) = true <->
   exists c rest, AnalyzeResponse.root_cause_analysis r = Some (String c rest)) /\
  (forall html,
     In html (omap Trace.page (trace_of host (FixErrorCommand.execute client) w)) ->
     exists analysis,
       AnalyzeResponse.root_cause_analysis r = Some analysis /\
       html = FixErrorCommand.rootCauseHtml analysis) /\
  existsb Trace.is_quick_pick (trace_of host (FixErrorCommand.execute client) w) = false /\
  existsb Trace.is_apply_fix (trace_of host (FixErrorCommand.execute client) w) = false.
Proof.
  intros Hr Hstatus Hfixes.
  exact (always_run host _ _ (fix_without_fixes client) w r Hr Hstatus Hfixes).
Qed.

(** C5. In every run of the Fix command an apply-fix request comes only after
    the user picked an entry of the quick pick and only after the
    confirmation dialog was answered "Yes"; the quick pick lists the fixes in
    the order of the response; the fix applied is the one picked; and when the
    quick pick is dismissed or the confirmation declined, the command returns
    without an apply-fix request. The command returns as well in every other
    run in which no thrown value is [undefined] or [null] (see C4). *)
Theorem fix_applies_only_after_pick_and_confirmation :
  (messages_readable (trace_of host (FixErrorCommand.execute client) w) = true ->
   outcome_of host (FixErrorCommand.execute client) w = Returned tt) /\
  only_after Trace.picked_one Trace.is_apply_fix
    (trace_of host (FixErrorCommand.execute client) w) /\
  only_after Trace.said_yes Trace.is_apply_fix
    (trace_of host (FixErrorCommand.execute client) w) /\
  (existsb Trace.pick_cancelled (trace_of host (FixErrorCommand.execute client) w) = true ->
   existsb Trace.is_apply_fix (trace_of host (FixErrorCommand.execute client) w) = false /\
   outcome_of host (FixErrorCommand.execute client) w = Returned tt) /\
  (existsb Trace.declined (trace_of host (FixErrorCommand.execute client) w) = true ->
   existsb Trace.is_apply_fix (trace_of host (FixErrorCommand.execute client) w) = false /\
   outcome_of host (FixErrorCommand.execute client) w = Returned tt) /\
  (forall items,
     In items (omap Trace.offered (trace_of host (FixErrorCommand.execute client) w)) ->
     exists r fixes,
       Trace.analysed (trace_of host (FixErrorCommand.execute client) w) = Some r /\
       AnalyzeResponse.fixes r = Some fixes /\
       map QuickPickItem.fix_ items = fixes) /\
  (forall applied,
     In applied (omap Trace.applied (trace_of host (FixErrorCommand.execute client) w)) ->
     exists item,
       In item (omap Trace.picked (trace_of host (FixErrorCommand.execute client) w)) /\
       applied = QuickPickItem.fix_ item).
Proof.
  destruct (always_run host _ _ (fix_apply_is_guarded client) w)
    as (Hout & Hpick & Hyes & Hrest).
  split; [exact Hout|].
  split; [now apply guarded_by_only_after|].
  split; [now apply guarded_by_only_after|].
  exact Hrest.
Qed.

(** C6. In every run of the Undo command a request to the backend comes only
    after the confirmation dialog was answered "Yes"; when the dialog is
    declined the command returns at once: the dialog is the whole trace and no
    request is made. The command returns as well in every other run in which
    no thrown value is [undefined] or [null] (see C4). *)
Theorem undo_only_after_confirmation :
  (messages_readable (trace_of host (UndoFixCommand.execute client) w) = true ->
   outcome_of host (UndoFixCommand.execute client) w = Returned tt) /\
  only_after Trace.said_yes Trace.is_backend_call
    (trace_of host (UndoFixCommand.execute client) w) /\
  (existsb Trace.declined (trace_of host (UndoFixCommand.execute client) w) = true ->
   existsb Trace.is_backend_call (trace_of host (UndoFixCommand.execute client) w) = false /\
   length (trace_of host (UndoFixCommand.execute client) w) = 1%nat /\
   outcome_of host (UndoFixCommand.execute client) w = Returned tt).
Proof.
  destruct (always_run host _ _ (undo_is_guarded client) w) as (Hout & Hyes & Hrest).
  split; [exact Hout|].
  split; [now apply guarded_by_only_after | exact Hrest].
Qed.

(** X19. The handlers catch [any] and read [error.message]. A command
    handler returns normally in every run in which no value thrown into it
    (by a method of the backend client or by the editor) is [undefined] or
    [null], and every such value is surfaced in
    an error notification that carries its message: "Error: " or, inside
    [applyFix], "Error applying fix: ", followed by the [message] of the
    value as a string. For a thrown [undefined] or [null] the read of
    [message] throws a [TypeError] inside the handler: the command rejects
    with that [TypeError], unless the value was thrown inside [applyFix],
    whose [TypeError] the handler of [execute] shows. A command rejects in
    no other way, and a run that rejects shows no error notification. *)
Theorem commands_return_unless_nullish_thrown (command : Command) :
  (messages_readable (trace_of host (execute command client) w) = true ->
   outcome_of host (execute command client) w = Returned tt) /\
  (forall error,
     In error (Trace.thrown (trace_of host (execute command client) w)) ->
     Js.nullish error = false ->
     In (Out (ShowErrorMessage
                ("rootCauseAI: Error: " +:+ ToString (Js.field error "message"))))
        (trace_of host (execute command client) w) \/
     In (Out (ShowErrorMessage
                ("rootCauseAI: Error applying fix: "
                   +:+ ToString (Js.field error "message"))))
        (trace_of host (execute command client) w)) /\
  (forall error,
     In error (Trace.thrown (trace_of host (execute command client) w)) ->
     Js.nullish error = true ->
     exists type_error,
       Js.get_prop error "message" = inl type_error /\
       (outcome_of host (execute command client) w = Rejected type_error \/
        In (Out (ShowErrorMessage
                   ("rootCauseAI: Error: "
                      +:+ ToString (Js.field type_error "message"))))
           (trace_of host (execute command client) w))) /\
  (forall e,
     outcome_of host (execute command client) w = Rejected e ->
     existsb is_error_notification (trace_of host (execute command client) w) = false /\
     exists error,
       In error (Trace.thrown (trace_of host (execute command client) w)) /\
       Js.nullish error = true /\
       Js.get_prop error "message" = inl e).
Proof.
  exact (always_run host _ _ (commands_catch_what_they_can_read client command) w).
Qed.

End Claims.

(** ** The history table *)

Lemma blank_app (s t : string) :
  blank s = true -> blank t = true -> blank (s +:+ t) = true.
Proof.
  induction s as [|a s IH]; [intros _ Ht; exact Ht|].
  rewrite append_cons. simpl. intros Hs Ht.
  apply andb_true_iff in Hs as [Ha Hs]. rewrite Ha. simpl. now apply IH.
Qed.

Lemma spaced_cons (piece : string) (pieces : list string)
    (space after text : string) :
  blank space = true ->
  text = space +:+ piece +:+ after ->
  spaced pieces after ->
  spaced (piece :: pieces) text.
Proof. intros Hspace Htext Hafter. exists space, after. auto. Qed.

Section HistoryTable.

Context {runtime : Runtime}.

Lemma rowHtml_cells (item : HistoryItem.t) (rest : string) :
  ShowHistoryCommand.rowHtml item +:+ rest
  = indent 28 +:+ "<tr>"
    +:+ indent 32 +:+ ("<td>de>" +:+ HistoryItem.fix_id item +:+ "</code></td>")
    +:+ indent 32 +:+ ("<td>" +:+ HistoryItem.file_path item +:+ "</td>")
    +:+ indent 32
    +:+ ("<td>" +:+ Date_toLocaleString (HistoryItem.timestamp item) +:+ "</td>")
    +:+ indent 32
    +:+ ("<td class=" +:+ JsString.dq
           +:+ (if HistoryItem.reverted item then "reverted" else "active")
           +:+ JsString.dq +:+ ">")
    +:+ indent 36
    +:+ (if HistoryItem.reverted item then "🔴 Reverted" else "✅ Active")
    +:+ indent 32 +:+ "</td>"
    +:+ indent 28 +:+ "</tr>"
    +:+ indent 24 +:+ rest.
Proof.
  unfold ShowHistoryCommand.rowHtml. rewrite !append_assoc. reflexivity.
Qed.

Lemma rows_spaced (history : list HistoryItem.t) (lead trail : string) :
  blank lead = true -> blank trail = true ->
  spaced (flat_map history_row history)
    (lead +:+ JsString.join (map ShowHistoryCommand.rowHtml history) +:+ trail).
Proof.
  revert lead. induction history as [|item history IH]; intros lead Hlead Htrail.
  - simpl. now apply blank_app.
  - change (JsString.join (map ShowHistoryCommand.rowHtml (item :: history)))
      with (ShowHistoryCommand.rowHtml item
              +:+ JsString.join (map ShowHistoryCommand.rowHtml history)).
    rewrite append_assoc, rowHtml_cells.
    change (flat_map history_row (item :: history))
      with (history_row item ++ flat_map history_row history).
    unfold history_row at 1.
    eapply (spaced_cons _ _ (lead +:+ indent 28));
      [apply blank_app; [exact Hlead | reflexivity]
      | symmetry; apply append_assoc |].
    do 7 (eexists; eexists; (split; [|split; [reflexivity|]]); [reflexivity|]).
    apply IH; [reflexivity | exact Htrail].
Qed.

Lemma historyHead_parts :
  ShowHistoryCommand.historyHead
  = substring 0 1026 ShowHistoryCommand.historyHead +:+ "<table>"
    +:+ substring 1033 314 ShowHistoryCommand.historyHead +:+ "<tbody>"
    +:+ indent 24.
Proof. vm_compute. reflexivity. Qed.

Lemma historyFoot_parts :
  ShowHistoryCommand.historyFoot
  = indent 20 +:+ "</tbody>" +:+ substring 29 74 ShowHistoryCommand.historyFoot.
Proof. vm_compute. reflexivity. Qed.

Lemma getHistoryHtml_is_table (history : list HistoryItem.t) :
  history_table history (ShowHistoryCommand.getHistoryHtml history).
Proof.
  unfold history_table, ShowHistoryCommand.getHistoryHtml.
  exists (substring 0 1026 ShowHistoryCommand.historyHead),
         (substring 1033 314 ShowHistoryCommand.historyHead),
         (indent 24 +:+ JsString.join (map ShowHistoryCommand.rowHtml history)
            +:+ indent 20),
         (substring 29 74 ShowHistoryCommand.historyFoot).
  split; [|apply rows_spaced; reflexivity].
  rewrite historyHead_parts at 1. rewrite historyFoot_parts at 1.
  rewrite !append_assoc. reflexivity.
Qed.

End HistoryTable.

Section History.

Context {runtime : Runtime} {World : Type}.
Variables (host : Host World) (client : BackendClient.t) (w : World).

(** C9. The ShowHistory command starts with its progress indicator, and once
    the indicator is up its next step is the history request with count 20,
    the only request it ever makes to the backend. When the list returned is
    empty, the command shows the informational message, creates no panel and
    returns. When it is not empty, the command requests the history panel,
    and the page it gives it holds a table whose body is one row per item,
    in the order of the list, each row with the identifier, the file, the
    time stamp and the status of its item; when nothing is thrown that page
    is set. A history panel is requested for a non-empty list only. *)
Theorem history_requests_twenty_and_skips_empty_table :
  (exists settled rest,
     trace_of host (ShowHistoryCommand.execute client) w
     = Req (WithProgress "rootCauseAI: Loading history..." false) settled :: rest /\
     match settled with
     | inl _ => existsb Trace.is_backend_call rest = false
     | inr _ =>
         exists answer rest',
           rest = Req (HttpGetHistory 20) answer :: rest' /\
           existsb Trace.is_backend_call rest' = false
     end) /\
  (forall history,
     In history (omap Trace.history (trace_of host (ShowHistoryCommand.execute client) w)) ->
     (history = [] ->
      outcome_of host (ShowHistoryCommand.execute client) w = Returned tt /\
      In (Out (ShowInformationMessage "rootCauseAI: No fix history available"))
         (trace_of host (ShowHistoryCommand.execute client) w) /\
      existsb (Trace.is_create_panel "fixHistory")
        (trace_of host (ShowHistoryCommand.execute client) w) = false /\
      omap Trace.page (trace_of host (ShowHistoryCommand.execute client) w) = []) /\
     (history <> [] ->
      existsb (Trace.is_create_panel "fixHistory")
        (trace_of host (ShowHistoryCommand.execute client) w) = true /\
      (forall html,
         In html (omap Trace.page (trace_of host (ShowHistoryCommand.execute client) w)) ->
         history_table history html) /\
      (Trace.thrown (trace_of host (ShowHistoryCommand.execute client) w) = [] ->
       exists html,
         omap Trace.page (trace_of host (ShowHistoryCommand.execute client) w) = [html]))) /\
  (existsb (Trace.is_create_panel "fixHistory")
     (trace_of host (ShowHistoryCommand.execute client) w) = true ->
   exists history,
     In history (omap Trace.history (trace_of host (ShowHistoryCommand.execute client) w)) /\
     history <> []) /\
  (messages_readable (trace_of host (ShowHistoryCommand.execute client) w) = true ->
   outcome_of host (ShowHistoryCommand.execute client) w = Returned tt).
Proof.
  destruct (always_run host _ _ (history_asks_for_twenty client) w)
    as (Hout & Hrequest & Hlist & Hpanel).
  split; [exact Hrequest|]. split; [|split; [exact Hpanel | exact Hout]].
  intros history Hin. destruct (Hlist history Hin) as [Hempty Hfull].
  split; [exact Hempty|].
  intros Hne. destruct (Hfull Hne) as (Hcreated & Hpages & Hset).
  split; [exact Hcreated|]. split.
  - intros html Hhtml. rewrite (Hpages html Hhtml). apply getHistoryHtml_is_table.
  - intros Hquiet. eexists. exact (Hset Hquiet).
Qed.

End History.

Lemma history_requests_twenty_and_skips_empty_table_witness :
  exists html,
    omap Trace.page
      (trace_of (Scenario.host Scenario.two_in_history)
         (ShowHistoryCommand.execute (H := Scenario.runtime) Scenario.client) tt)
    = [html] /\
    history_table (H := Scenario.runtime)
      [HistoryItem.mk "b2" "src/app.py" "2024-05-02T10:00:00Z" false;
       HistoryItem.mk "a1" "src/util.py" "2024-05-01T09:00:00Z" true]
      html.
Proof.
  destruct (history_requests_twenty_and_skips_empty_table (runtime := Scenario.runtime)
              (Scenario.host Scenario.two_in_history) Scenario.client tt)
    as (_ & Hlist & _).
  destruct (Hlist [HistoryItem.mk "b2" "src/app.py" "2024-05-02T10:00:00Z" false;
                   HistoryItem.mk "a1" "src/util.py" "2024-05-01T09:00:00Z" true])
    as [_ Hfull].
  - vm_compute. left. reflexivity.
  - destruct Hfull as (_ & Hpages & Hset); [discriminate|].
    destruct Hset as [html Hhtml]; [vm_compute; reflexivity|].
    exists html. split; [exact Hhtml|].
    apply Hpages. rewrite Hhtml. left. reflexivity.
Defined.

(** ** Where the confidence is shown *)

Lemma occurs_in_app_l (piece a b : string) :
  occurs_in piece b -> occurs_in piece (a +:+ b).
Proof.
  intros (before & after & ->). exists (a +:+ before), after.
  now rewrite append_assoc.
Qed.



Section ConfidenceShown.

Context {runtime : Runtime}.




End ConfidenceShown.

Section ConfidenceInRuns.

Context {runtime : Runtime}.
Variable client : BackendClient.t.



End ConfidenceInRuns.

Section Confidence.

Context {runtime : Runtime} {World : Type}.
Variables (host : Host World) (client : BackendClient.t) (w : World).


End Confidence.


(** ** The properties at concrete runs *)

Lemma fix_failed_analysis_shows_error_witness :
  existsb Trace.is_quick_pick
    (trace_of (Scenario.host (Scenario.base Scenario.failed_with_fix))
       (FixErrorCommand.execute (H := Scenario.runtime) Scenario.client) tt) = false.
Proof.
  apply (fix_failed_analysis_shows_error (runtime := Scenario.runtime)
           (Scenario.host (Scenario.base Scenario.failed_with_fix))
           Scenario.client tt Scenario.failed_with_fix).
  - vm_compute. reflexivity.
  - reflexivity.
Defined.

(** C3, as stated, fails: with a successful analysis, no fixes, and the empty
    string as [root_cause_analysis], the root cause is present and yet no
    panel is requested. *)
Lemma fix_empty_root_cause_opens_no_panel :
  ~ (forall r,
       Trace.analysed
         (trace_of (Scenario.host (Scenario.base Scenario.no_fix_empty_cause))
            (FixErrorCommand.execute (H := Scenario.runtime) Scenario.client) tt)
       = Some r ->
       AnalyzeResponse.status r <> "failed" ->
       AnalyzeResponse.fixes r = None \/ AnalyzeResponse.fixes r = Some [] ->
       (existsb (Trace.is_create_panel "rootCauseAnalysis")
          (trace_of (Scenario.host (Scenario.base Scenario.no_fix_empty_cause))
             (FixErrorCommand.execute (H := Scenario.runtime) Scenario.client) tt)
        = true
        <-> AnalyzeResponse.root_cause_analysis r <> None)).
Proof.
  intros Hclaim.
  destruct (Hclaim Scenario.no_fix_empty_cause) as [_ Hpanel].
  - vm_compute. reflexivity.
  - discriminate.
  - right. reflexivity.
  - assert (Hpresent :
      AnalyzeResponse.root_cause_analysis Scenario.no_fix_empty_cause <> None)
      by discriminate.
    apply Hpanel in Hpresent. vm_compute in Hpresent. discriminate.
Qed.

Lemma fix_without_fixes_warns_witness :
  existsb (Trace.is_create_panel "rootCauseAnalysis")
    (trace_of (Scenario.host (Scenario.base Scenario.no_fix_with_cause))
       (FixErrorCommand.execute (H := Scenario.runtime) Scenario.client) tt) = true /\
  outcome_of (Scenario.host (Scenario.base Scenario.no_fix_with_cause))
    (FixErrorCommand.execute (H := Scenario.runtime) Scenario.client) tt = Returned tt.
Proof.
  destruct (fix_without_fixes_warns (runtime := Scenario.runtime)
              (Scenario.host (Scenario.base Scenario.no_fix_with_cause))
              Scenario.client tt Scenario.no_fix_with_cause)
    as (Hreturned & _ & Hpanel & _).
  - vm_compute. reflexivity.
  - discriminate.
  - right. reflexivity.
  - split.
    + apply Hpanel. eexists. eexists. reflexivity.
    + apply Hreturned. vm_compute. reflexivity.
Defined.

Lemma fix_applies_only_after_pick_and_confirmation_witness :
  existsb Trace.is_apply_fix
    (trace_of (Scenario.host Scenario.pick_dismissed)
       (FixErrorCommand.execute (H := Scenario.runtime) Scenario.client) tt) = false /\
  outcome_of (Scenario.host Scenario.pick_dismissed)
    (FixErrorCommand.execute (H := Scenario.runtime) Scenario.client) tt = Returned tt.
Proof.
  destruct (fix_applies_only_after_pick_and_confirmation (runtime := Scenario.runtime)
              (Scenario.host Scenario.pick_dismissed) Scenario.client tt)
    as (_ & _ & _ & Hcancelled & _).
  apply Hcancelled. vm_compute. reflexivity.
Defined.

(** The whole Fix scenario: one fix, picked and confirmed, applied with the
    identifier [abc123]; the command reports it and opens the file. *)
Example fix_picked_and_confirmed :
  Trace.outputs
    (trace_of (Scenario.host Scenario.pick_and_confirm)
       (FixErrorCommand.execute (H := Scenario.runtime) Scenario.client) tt)
  = [ProgressReport "Parsing error...";
     ProgressReport "Analysis complete!";
     ShowInformationMessage "rootCauseAI: Fix applied successfully! (ID: abc123)"] /\
  omap Trace.applied
    (trace_of (Scenario.host Scenario.pick_and_confirm)
       (FixErrorCommand.execute (H := Scenario.runtime) Scenario.client) tt)
  = [Scenario.a_fix] /\
  omap Trace.opened
    (trace_of (Scenario.host Scenario.pick_and_confirm)
       (FixErrorCommand.execute (H := Scenario.runtime) Scenario.client) tt)
  = ["src/app.py"] /\
  omap Trace.offered
    (trace_of (Scenario.host Scenario.pick_and_confirm)
       (FixErrorCommand.execute (H := Scenario.runtime) Scenario.client) tt)
  = [[ {| QuickPickItem.label := "$(tools) Fix 1: src/app.py";
          QuickPickItem.description := "Confidence: 87%";
          QuickPickItem.detail := "use 2";
          QuickPickItem.fix_ := Scenario.a_fix |} ]].
Proof. vm_compute. repeat split. Qed.

Lemma undo_only_after_confirmation_witness :
  existsb Trace.is_backend_call
    (trace_of (Scenario.host (Scenario.base Scenario.one_fix))
       (UndoFixCommand.execute (H := Scenario.runtime) Scenario.client) tt) = false.
Proof.
  destruct (undo_only_after_confirmation (runtime := Scenario.runtime)
              (Scenario.host (Scenario.base Scenario.one_fix)) Scenario.client tt)
    as (_ & _ & Hdeclined).
  apply Hdeclined. vm_compute. reflexivity.
Defined.

Lemma commands_return_unless_nullish_thrown_witness :
  outcome_of (Scenario.host Scenario.analysis_unreachable)
    (execute (H := Scenario.runtime) FixError Scenario.client) tt = Returned tt /\
  In (Out (ShowErrorMessage
             "rootCauseAI: Error: connect ECONNREFUSED 127.0.0.1:8000"))
     (trace_of (Scenario.host Scenario.analysis_unreachable)
        (execute (H := Scenario.runtime) FixError Scenario.client) tt).
Proof.
  destruct (commands_return_unless_nullish_thrown (runtime := Scenario.runtime)
              (Scenario.host Scenario.analysis_unreachable) Scenario.client tt FixError)
    as (Hreturned & Hshown & _).
  split; [apply Hreturned; vm_compute; reflexivity|].
  destruct (Hshown Scenario.unreachable) as [Hin | Hin].
  - vm_compute. left. reflexivity.
  - reflexivity.
  - exact Hin.
  - vm_compute in Hin. repeat destruct Hin as [Hin | Hin]; try discriminate Hin.
    contradiction.
Defined.


(* ================================================================== *)
(** * Further properties *)
(* ================================================================== *)

(** ** Escaping *)

Lemma replaceAll_app (c : ascii) (rep a b : string) :
  JsString.replaceAll c rep (a +:+ b)
  = JsString.replaceAll c rep a +:+ JsString.replaceAll c rep b.
Proof.
  induction a as [|x a IH]; [reflexivity|].
  rewrite append_cons. simpl. rewrite IH.
  destruct (Ascii.eqb x c); [now rewrite append_assoc | now rewrite append_cons].
Qed.

Lemma escapeHtml_app (a b : string) :
  FixErrorCommand.escapeHtml (a +:+ b)
  = FixErrorCommand.escapeHtml a +:+ FixErrorCommand.escapeHtml b.
Proof. unfold FixErrorCommand.escapeHtml. now rewrite !replaceAll_app. Qed.

Lemma escapeHtml_one (a : ascii) :
  FixErrorCommand.escapeHtml (String a "") = Html.escape_char a.
Proof.
  unfold FixErrorCommand.escapeHtml, Html.escape_char.
  destruct (Ascii.eqb_spec a "&") as [-> | H1]; [reflexivity|].
  destruct (Ascii.eqb_spec a "<") as [-> | H2]; [reflexivity|].
  destruct (Ascii.eqb_spec a ">") as [-> | H3]; [reflexivity|].
  destruct (Ascii.eqb_spec a (ascii_of_nat 34)) as [-> | H4]; [reflexivity|].
  destruct (Ascii.eqb_spec a "'") as [-> | H5]; [reflexivity|].
  apply Ascii.eqb_neq in H1, H2, H3, H4, H5.
  simpl. rewrite H1. simpl. rewrite H2. simpl. rewrite H3. simpl. rewrite H4.
  simpl. now rewrite H5.
Qed.

Lemma escapeHtml_cons (a : ascii) (rest : string) :
  FixErrorCommand.escapeHtml (String a rest)
  = Html.escape_char a +:+ FixErrorCommand.escapeHtml rest.
Proof.
  change (String a rest) with (String a "" +:+ rest).
  now rewrite escapeHtml_app, escapeHtml_one.
Qed.

Lemma escapeHtml_escape (text : string) :
  FixErrorCommand.escapeHtml text = Html.escape text.
Proof.
  induction text as [|a rest IH]; [reflexivity|].
  rewrite escapeHtml_cons, IH. reflexivity.
Qed.

(** X1. The five replacements of [escapeHtml], made one after the other over
    the whole text, amount to one pass that escapes each character on its
    own: the ampersand of an entity written by one replacement is never
    escaped again by another, and escaping distributes over concatenation. *)
Theorem escapeHtml_is_one_pass (text more : string) :
  FixErrorCommand.escapeHtml text = Html.escape text /\
  FixErrorCommand.escapeHtml (text +:+ more)
  = FixErrorCommand.escapeHtml text +:+ FixErrorCommand.escapeHtml more.
Proof.
  split; [apply escapeHtml_escape | apply escapeHtml_app].
Qed.

Lemma occurs_app (a : ascii) (s t : string) :
  Html.occurs a (s +:+ t) = Html.occurs a s || Html.occurs a t.
Proof.
  induction s as [|b s IH]; [reflexivity|].
  rewrite append_cons. simpl. now rewrite IH, orb_assoc.
Qed.

Lemma escape_char_no_markup (a b : ascii) :
  In a Html.markup -> Html.occurs a (Html.escape_char b) = false.
Proof.
  intros Ha. unfold Html.escape_char.
  destruct (Ascii.eqb_spec b "&") as [-> | H1];
    [destruct Ha as [<- | [<- | [<- | [<- | []]]]]; reflexivity|].
  destruct (Ascii.eqb_spec b "<") as [-> | H2];
    [destruct Ha as [<- | [<- | [<- | [<- | []]]]]; reflexivity|].
  destruct (Ascii.eqb_spec b ">") as [-> | H3];
    [destruct Ha as [<- | [<- | [<- | [<- | []]]]]; reflexivity|].
  destruct (Ascii.eqb_spec b (ascii_of_nat 34)) as [-> | H4];
    [destruct Ha as [<- | [<- | [<- | [<- | []]]]]; reflexivity|].
  destruct (Ascii.eqb_spec b "'") as [-> | H5];
    [destruct Ha as [<- | [<- | [<- | [<- | []]]]]; reflexivity|].
  simpl. rewrite orb_false_r. apply Ascii.eqb_neq.
  destruct Ha as [<- | [<- | [<- | [<- | []]]]]; assumption.
Qed.

(** X2. Whatever the text, its escaped form holds no [<], no [>], no double
    quote and no single quote: inserted in a page, it cannot open or close a
    tag or an attribute value. *)
Theorem escapeHtml_leaves_no_markup (text : string) (a : ascii) :
  In a Html.markup -> Html.occurs a (FixErrorCommand.escapeHtml text) = false.
Proof.
  intros Ha. rewrite escapeHtml_escape.
  induction text as [|b rest IH]; [reflexivity|].
  simpl. now rewrite occurs_app, IH, escape_char_no_markup.
Qed.

Lemma escapeHtml_leaves_no_markup_witness :
  Html.occurs "<" (FixErrorCommand.escapeHtml "<script>alert('x')</script>") = false.
Proof.
  apply (escapeHtml_leaves_no_markup "<script>alert('x')</script>" "<").
  left. reflexivity.
Defined.

(** X3. A text without ampersand, angle bracket or quote is left as it is. *)
Theorem escapeHtml_keeps_plain_text (text : string) :
  Html.occurs "&" text = false ->
  (forall a, In a Html.markup -> Html.occurs a text = false) ->
  FixErrorCommand.escapeHtml text = text.
Proof.
  intros Hamp Hmarkup. rewrite escapeHtml_escape.
  induction text as [|b rest IH]; [reflexivity|].
  simpl in Hamp. apply orb_false_iff in Hamp as [Hb Hamp].
  assert (Hrest : forall a, In a Html.markup -> Html.occurs a rest = false).
  { intros a Ha. specialize (Hmarkup a Ha). simpl in Hmarkup.
    now apply orb_false_iff in Hmarkup. }
  assert (Hhead : forall a, In a Html.markup -> Ascii.eqb b a = false).
  { intros a Ha. specialize (Hmarkup a Ha). simpl in Hmarkup.
    now apply orb_false_iff in Hmarkup. }
  simpl. rewrite (IH Hamp Hrest). unfold Html.escape_char.
  rewrite Hb.
  rewrite (Hhead "<"%char), (Hhead ">"%char), (Hhead (ascii_of_nat 34)),
    (Hhead "'"%char) by (simpl; tauto).
  reflexivity.
Qed.

Lemma escapeHtml_keeps_plain_text_witness :
  FixErrorCommand.escapeHtml "division by zero" = "division by zero".
Proof.
  apply escapeHtml_keeps_plain_text; [reflexivity|].
  intros a [<- | [<- | [<- | [<- | []]]]]; reflexivity.
Defined.

Lemma escape_length (text : string) :
  (String.length text <= String.length (Html.escape text))%nat.
Proof.
  induction text as [|a rest IH]; [simpl; lia|].
  simpl. rewrite append_length. unfold Html.escape_char.
  repeat match goal with |- context [if ?b then _ else _] => destruct b end;
    simpl; lia.
Qed.

Lemma unescape_escape (text : string) (fuel : nat) :
  (String.length (Html.escape text) <= fuel)%nat ->
  Html.unescape fuel (Html.escape text) = text.
Proof.
  revert fuel. induction text as [|a rest IH]; intros fuel Hfuel.
  - destruct fuel; reflexivity.
  - simpl in Hfuel. rewrite append_length in Hfuel.
    simpl Html.escape. unfold Html.escape_char in *.
    destruct (Ascii.eqb_spec a "&") as [-> | H1].
    { destruct fuel as [|fuel]; [simpl in Hfuel; lia|].
      change (Html.unescape (S fuel) ("&amp;" +:+ Html.escape rest))
        with (String "&" (Html.unescape fuel (Html.escape rest))).
      rewrite IH; [reflexivity | simpl in Hfuel; lia]. }
    destruct (Ascii.eqb_spec a "<") as [-> | H2].
    { destruct fuel as [|fuel]; [simpl in Hfuel; lia|].
      change (Html.unescape (S fuel) ("&lt;" +:+ Html.escape rest))
        with (String "<" (Html.unescape fuel (Html.escape rest))).
      rewrite IH; [reflexivity | simpl in Hfuel; lia]. }
    destruct (Ascii.eqb_spec a ">") as [-> | H3].
    { destruct fuel as [|fuel]; [simpl in Hfuel; lia|].
      change (Html.unescape (S fuel) ("&gt;" +:+ Html.escape rest))
        with (String ">" (Html.unescape fuel (Html.escape rest))).
      rewrite IH; [reflexivity | simpl in Hfuel; lia]. }
    destruct (Ascii.eqb_spec a (ascii_of_nat 34)) as [-> | H4].
    { destruct fuel as [|fuel]; [simpl in Hfuel; lia|].
      change (Html.unescape (S fuel) ("&quot;" +:+ Html.escape rest))
        with (String (ascii_of_nat 34) (Html.unescape fuel (Html.escape rest))).
      rewrite IH; [reflexivity | simpl in Hfuel; lia]. }
    destruct (Ascii.eqb_spec a "'") as [-> | H5].
    { destruct fuel as [|fuel]; [simpl in Hfuel; lia|].
      change (Html.unescape (S fuel) ("&#039;" +:+ Html.escape rest))
        with (String "'" (Html.unescape fuel (Html.escape rest))).
      rewrite IH; [reflexivity | simpl in Hfuel; lia]. }
    destruct fuel as [|fuel]; [simpl in Hfuel; lia|].
    rewrite append_cons, append_nil_l.
    assert (Hstep : Html.unescape (S fuel) (String a (Html.escape rest))
                    = String a (Html.unescape fuel (Html.escape rest))).
    { destruct a as [[|] [|] [|] [|] [|] [|] [|] [|]]; try reflexivity.
      exfalso. now apply H1. }
    rewrite Hstep, IH; [reflexivity | simpl in Hfuel; lia].
Qed.

(** X4. Escaping loses nothing: two texts with the same escaped form are the
    same text. *)
Theorem escapeHtml_injective (a b : string) :
  FixErrorCommand.escapeHtml a = FixErrorCommand.escapeHtml b -> a = b.
Proof.
  rewrite !escapeHtml_escape.
  intros Heq.
  pose proof (unescape_escape a _ (Nat.le_refl _)) as Ha.
  pose proof (unescape_escape b _ (Nat.le_refl _)) as Hb.
  rewrite Heq in Ha. congruence.
Qed.

Lemma escapeHtml_injective_witness : "a<b" = "a<b".
Proof. apply (escapeHtml_injective "a<b" "a<b"). reflexivity. Defined.

(** ** Further properties of the commands *)


Lemma projectRoot_cases (folders : option (list string)) :
  FixErrorCommand.projectRoot folders <> "" /\
  (folders = None \/ folders = Some [] -> FixErrorCommand.projectRoot folders = ".") /\
  (forall first others, folders = Some (first :: others) ->
     FixErrorCommand.projectRoot folders = (if String.eqb first "" then "." else first)).
Proof.
  unfold FixErrorCommand.projectRoot, JsString.or_else.
  split; [|split].
  - destruct folders as [[|[|c first] others]|]; simpl; discriminate.
  - intros [-> | ->]; reflexivity.
  - intros first others ->. simpl. now destruct first.
Qed.

Lemma explanationHtml_absent_time `{Runtime} (response : AnalyzeResponse.t) :
  AnalyzeResponse.execution_time response = None ->
  occurs_in "Time: undefineds</p>" (ExplainErrorCommand.explanationHtml response).
Proof.
  intros Habsent.
  unfold ExplainErrorCommand.explanationHtml. cbv zeta. rewrite Habsent.
  do 6 apply occurs_in_app_l.
  match goal with
  | |- occurs_in _ (?d +:+ _ +:+ ?e +:+ ?rest) =>
      exists (substring 0 (String.length d - 6) d),
             (substring 5 (String.length e - 5) e +:+ rest);
      replace d with (substring 0 (String.length d - 6) d +:+ "Time: ") at 1
        by (vm_compute; reflexivity);
      replace e with ("s</p>" +:+ substring 5 (String.length e - 5) e) at 1
        by (vm_compute; reflexivity)
  end.
  rewrite !append_assoc. reflexivity.
Qed.

Section MoreOnCommands.

Context {runtime : Runtime} {World : Type}.
Variables (host : Host World) (client : BackendClient.t) (w : World).

(** X5. The Fix command does nothing before it knows the backend runs: every
    request other than the health probe comes after a probe that was answered
    with status "running", and when the probe fails or is answered otherwise
    the run is the probe followed by one error notification. *)
Theorem fix_needs_running_backend :
  only_after Observe.probe_running Observe.beyond_probe
    (trace_of host (FixErrorCommand.execute client) w) /\
  (existsb Observe.probe_running (trace_of host (FixErrorCommand.execute client) w) = false ->
   outcome_of host (FixErrorCommand.execute client) w = Returned tt /\
   exists settled,
     trace_of host (FixErrorCommand.execute client) w =
     [Req HttpGetRoot settled;
      Out (ShowErrorMessage
             "rootCauseAI: Backend server is not running. Please start it with: python backend/server.py")]).
Proof.
  split.
  - apply guarded_by_only_after. by_exploring. all: reflexivity.
  - by_exploring.
    all: unfold Observe.probe_running; simpl.
    all: repeat match goal with
           | Heq : Js.get_prop _ _ = _ |- _ => rewrite Heq
           | Heq : Js.strict_eq_string _ _ = _ |- _ => rewrite Heq
           end; simpl.
    all: try discriminate.
    all: intros _; split; [reflexivity | eexists; reflexivity].
Qed.

(** X6. Without an error log the Fix command asks nothing of the backend:
    work for the backend (anything but the probe) comes only after the input
    box returned a non-empty text, and when the box is dismissed or left
    empty the command shows the warning, makes no analysis request and
    returns. *)
Theorem fix_needs_error_log :
  only_after Observe.log_pasted Observe.backend_work
    (trace_of host (FixErrorCommand.execute client) w) /\
  (forall answer,
     In answer (omap Observe.pasted (trace_of host (FixErrorCommand.execute client) w)) ->
     answer = None \/ answer = Some "" ->
     outcome_of host (FixErrorCommand.execute client) w = Returned tt /\
     Trace.outputs (trace_of host (FixErrorCommand.execute client) w)
     = [ShowWarningMessage "rootCauseAI: No error log provided"] /\
     omap Observe.analyze_request (trace_of host (FixErrorCommand.execute client) w) = []).
Proof.
  split.
  - apply guarded_by_only_after. by_exploring. all: reflexivity.
  - by_exploring.
    all: try solve [intros ? []].
    all: intros answer [<- | []] [Hanswer | Hanswer]; try discriminate Hanswer.
    all: repeat split; reflexivity.
Qed.

(** X7. The analysis request of the Fix command is put together from what the
    user and the configuration gave: there is at most one per run; its error
    log is the non-empty text returned by the input box; its project root is
    computed from the workspace folders reported just before and is never
    empty; provider and retry count are those of the configuration. *)
Theorem fix_analysis_request (body : AnalyzeRequest.t) :
  In body (omap Observe.analyze_request (trace_of host (FixErrorCommand.execute client) w)) ->
  omap Observe.analyze_request (trace_of host (FixErrorCommand.execute client) w) = [body] /\
  AnalyzeRequest.error_log body <> "" /\
  In (Some (AnalyzeRequest.error_log body))
     (omap Observe.pasted (trace_of host (FixErrorCommand.execute client) w)) /\
  (exists folders,
     omap Observe.folders (trace_of host (FixErrorCommand.execute client) w) = [folders] /\
     AnalyzeRequest.project_root body = FixErrorCommand.projectRoot folders) /\
  AnalyzeRequest.project_root body <> "" /\
  AnalyzeRequest.provider body = Config.getProvider (BackendClient.config client) /\
  AnalyzeRequest.max_retries body = Config.getMaxRetries (BackendClient.config client).
Proof.
  revert body. by_exploring.
  all: try solve [intros ? []].
  all: intros body [<- | []]; simpl.
  all: repeat split; try reflexivity; try discriminate; try (left; reflexivity).
  all: try (eexists; split; reflexivity).
  all: apply projectRoot_cases.
Qed.

(** X8. The diff comes before the question: in every run of the Fix command
    the confirmation dialog, and with it every apply-fix request, comes after
    the diff view was opened; the two documents of the diff hold the original
    and the proposed snippet of the picked fix, in this order, both in the
    language detected from its file path. *)
Theorem fix_previews_before_confirming :
  only_after Observe.diff_shown Observe.is_confirmation
    (trace_of host (FixErrorCommand.execute client) w) /\
  only_after Observe.diff_shown Trace.is_apply_fix
    (trace_of host (FixErrorCommand.execute client) w) /\
  (forall item,
     In item (omap Trace.picked (trace_of host (FixErrorCommand.execute client) w)) ->
     exists documents,
       omap Observe.untitled (trace_of host (FixErrorCommand.execute client) w)
       = documents /\
       prefix documents
         [(FixSuggestion.original_snippet (QuickPickItem.fix_ item),
           FixErrorCommand.detectLanguage (FixSuggestion.file_path (QuickPickItem.fix_ item)));
          (FixSuggestion.new_snippet (QuickPickItem.fix_ item),
           FixErrorCommand.detectLanguage (FixSuggestion.file_path (QuickPickItem.fix_ item)))] /\
       (existsb Observe.is_confirmation (trace_of host (FixErrorCommand.execute client) w) = true ->
        length documents = 2%nat)).
Proof.
  split; [|split].
  - apply guarded_by_only_after. by_exploring. all: reflexivity.
  - apply guarded_by_only_after. by_exploring. all: reflexivity.
  - by_exploring.
    all: try solve [intros ? []].
    all: intros item [<- | []]; eexists; split; [reflexivity|]; simpl.
    all: split; [|first [discriminate | reflexivity]].
    all: eexists; reflexivity.
Qed.

(** X9. An apply-fix request is made at most once per run of the Fix
    command; it is never a dry run, and it carries the picked fix together
    with the language detected from the file path of that fix. *)
Theorem fix_apply_request (body : ApplyFixRequest.t) :
  In body (omap Observe.apply_request (trace_of host (FixErrorCommand.execute client) w)) ->
  omap Observe.apply_request (trace_of host (FixErrorCommand.execute client) w) = [body] /\
  ApplyFixRequest.dry_run body = false /\
  ApplyFixRequest.language body
  = FixErrorCommand.detectLanguage (FixSuggestion.file_path (ApplyFixRequest.fix_ body)) /\
  omap Trace.picked (trace_of host (FixErrorCommand.execute client) w)
  <> [] /\
  forall item,
    In item (omap Trace.picked (trace_of host (FixErrorCommand.execute client) w)) ->
    ApplyFixRequest.fix_ body = QuickPickItem.fix_ item.
Proof.
  revert body. by_exploring.
  all: try solve [intros ? []].
  all: intros body [<- | []]; simpl.
  all: repeat split; try reflexivity; try discriminate.
  all: intros item [<- | []]; reflexivity.
Qed.

(** X10. What the Fix command reports after an apply-fix request. When the
    backend answers with success, the command shows "Fix applied
    successfully!" with the identifier and asks the editor to open the file
    of the fix, and no other file; when it answers without success, the
    command shows "Failed to apply fix:" with the message of the answer and
    opens no file; when the request itself fails, the command opens no file
    and shows "Error applying fix:" with the message of the thrown value, and
    reports nothing after it; if that value is [undefined] or [null], reading
    its message throws a [TypeError], which the handler of [execute] shows
    after "Error:". *)
Theorem fix_reports_apply_result (settled : JsError + ApplyFixResponse.t) :
  In settled (omap Observe.apply_settled (trace_of host (FixErrorCommand.execute client) w)) ->
  match settled with
  | inr response =>
      if ApplyFixResponse.success response then
        In (ShowInformationMessage
              ("rootCauseAI: Fix applied successfully! (ID: "
                 +:+ show_optional (ApplyFixResponse.fix_id response) +:+ ")"))
           (Trace.outputs (trace_of host (FixErrorCommand.execute client) w)) /\
        forall body,
          In body (omap Observe.apply_request
                     (trace_of host (FixErrorCommand.execute client) w)) ->
          omap Trace.opened (trace_of host (FixErrorCommand.execute client) w)
          = [FixSuggestion.file_path (ApplyFixRequest.fix_ body)]
      else
        last (Trace.outputs (trace_of host (FixErrorCommand.execute client) w))
        = Some (ShowErrorMessage
                  ("rootCauseAI: Failed to apply fix: "
                     +:+ ApplyFixResponse.message response)) /\
        omap Trace.opened (trace_of host (FixErrorCommand.execute client) w) = []
  | inl error =>
      (Js.nullish error = false ->
       last (Trace.outputs (trace_of host (FixErrorCommand.execute client) w))
       = Some (ShowErrorMessage
                 ("rootCauseAI: Error applying fix: "
                    +:+ ToString (Js.field error "message")))) /\
      (Js.nullish error = true ->
       exists type_error,
         Js.get_prop error "message" = inl type_error /\
         In (ShowErrorMessage
               ("rootCauseAI: Error: " +:+ ToString (Js.field type_error "message")))
            (Trace.outputs (trace_of host (FixErrorCommand.execute client) w))) /\
      omap Trace.opened (trace_of host (FixErrorCommand.execute client) w) = []
  end.
Proof.
  by_exploring.
  all: read_messages.
  all: try solve [intros []].
  all: intros [<- | []]; simpl.
  all: repeat match goal with
         | Heq : ApplyFixResponse.success _ = _ |- _ => rewrite Heq
         end.
  all: try solve [split; [find_entry | intros body [<- | []]; reflexivity]].
  all: try solve [split; reflexivity].
  all: split; [intros Hn; first [reflexivity | congruence]|].
  all: split; [|reflexivity].
  all: intros Hn; try congruence.
  all: eexists; split; [eassumption | find_entry].
Qed.

(** X11. The Explain command needs a selection: without an active editor, or
    with an empty selection, it shows the matching warning, makes no request
    to the backend and opens no panel. *)
Theorem explain_needs_selection (active : option TextEditor) :
  In active (omap Observe.editor (trace_of host (ExplainErrorCommand.execute client) w)) ->
  active = None \/ active = Some (mkEditor "") ->
  outcome_of host (ExplainErrorCommand.execute client) w = Returned tt /\
  Trace.outputs (trace_of host (ExplainErrorCommand.execute client) w)
  = [ShowWarningMessage
       (match active with
        | None => "rootCauseAI: No active editor"
        | Some _ => "rootCauseAI: Please select an error message"
        end)] /\
  existsb Trace.is_backend_call (trace_of host (ExplainErrorCommand.execute client) w) = false /\
  omap Observe.panel_type (trace_of host (ExplainErrorCommand.execute client) w) = [].
Proof.
  by_exploring.
  all: try solve [intros []].
  all: intros [<- | []] [Hactive | Hactive]; try discriminate Hactive.
  all: try (injection Hactive as ->; simpl in *; discriminate).
  all: repeat split; reflexivity.
Qed.

(** X12. The Explain command only reads and shows: in no run does it probe
    the health of the backend, show a quick pick or a confirmation, or open
    a file. It explains whatever the analysis returned: it sends the selected
    text as the error log, and for every response, also one whose status is
    "failed", it requests the explanation panel, and the only page it gives
    it is the page of that response, which is set when nothing is thrown. A
    response without [execution_time] is shown with "undefined" for the
    time. *)
Theorem explain_shows_every_response :
  existsb Observe.is_probe (trace_of host (ExplainErrorCommand.execute client) w) = false /\
  existsb Trace.is_quick_pick (trace_of host (ExplainErrorCommand.execute client) w) = false /\
  existsb Observe.is_confirmation (trace_of host (ExplainErrorCommand.execute client) w) = false /\
  omap Trace.opened (trace_of host (ExplainErrorCommand.execute client) w) = [] /\
  forall response,
    Trace.analysed (trace_of host (ExplainErrorCommand.execute client) w) = Some response ->
    omap Observe.panel_type (trace_of host (ExplainErrorCommand.execute client) w)
    = ["errorExplanation"] /\
    (forall html,
       In html (omap Trace.page (trace_of host (ExplainErrorCommand.execute client) w)) ->
       html = ExplainErrorCommand.explanationHtml response /\
       (AnalyzeResponse.execution_time response = None ->
        occurs_in "Time: undefineds</p>" html)) /\
    (Trace.thrown (trace_of host (ExplainErrorCommand.execute client) w) = [] ->
     omap Trace.page (trace_of host (ExplainErrorCommand.execute client) w)
     = [ExplainErrorCommand.explanationHtml response]) /\
    (exists active body,
       omap Observe.editor (trace_of host (ExplainErrorCommand.execute client) w)
       = [Some active] /\
       omap Observe.analyze_request (trace_of host (ExplainErrorCommand.execute client) w)
       = [body] /\
       AnalyzeRequest.error_log body = selected_text active /\
       AnalyzeRequest.error_log body <> "").
Proof.
  by_exploring.
  all: do 4 (split; [reflexivity|]).
  all: intros response; try discriminate.
  all: intros [= <-].
  all: split; [reflexivity|].
  all: split;
    [first [solve [intros html []]
           | intros html [<- | []]; split;
             [reflexivity | apply explanationHtml_absent_time]]|].
  all: split; [first [discriminate | reflexivity]|].
  all: eexists; eexists;
    split; [reflexivity | split; [reflexivity | split; [simpl; congruence | discriminate]]].
Qed.

(** X13. The Undo command reports what the backend answered: its only
    output is the message of the answer, as an information when the answer
    says success and as an error otherwise. *)
Theorem undo_reports_answer (response : UndoResponse.t) :
  In response (omap Observe.undo_response (trace_of host (UndoFixCommand.execute client) w)) ->
  outcome_of host (UndoFixCommand.execute client) w = Returned tt /\
  Trace.outputs (trace_of host (UndoFixCommand.execute client) w)
  = [if UndoResponse.success response
     then ShowInformationMessage ("rootCauseAI: " +:+ UndoResponse.message response)
     else ShowErrorMessage ("rootCauseAI: " +:+ UndoResponse.message response)].
Proof.
  revert response. by_exploring.
  all: try solve [intros ? []].
  all: intros response [<- | []].
  all: repeat match goal with
         | Heq : UndoResponse.success _ = _ |- _ => rewrite Heq
         end.
  all: split; reflexivity.
Qed.

(** X14. The ShowStats command shows the counters it received and nothing
    else: when the statistics request is answered, the command requests the
    statistics panel, the only page it sets is the page of the answer, and it
    shows no notification unless the editor fails to open the panel. It
    returns unless the editor throws [undefined] or [null] (see C4). *)
Theorem stats_shows_received_counters (answer : Stats.t) :
  In answer (omap Observe.stats (trace_of host (ShowStatsCommand.execute client) w)) ->
  (messages_readable (trace_of host (ShowStatsCommand.execute client) w) = true ->
   outcome_of host (ShowStatsCommand.execute client) w = Returned tt) /\
  omap Observe.panel_type (trace_of host (ShowStatsCommand.execute client) w) = ["fixStats"] /\
  (forall html,
     In html (omap Trace.page (trace_of host (ShowStatsCommand.execute client) w)) ->
     html = ShowStatsCommand.statsHtml answer) /\
  (Trace.thrown (trace_of host (ShowStatsCommand.execute client) w) = [] ->
   Trace.outputs (trace_of host (ShowStatsCommand.execute client) w) = [] /\
   omap Trace.page (trace_of host (ShowStatsCommand.execute client) w)
   = [ShowStatsCommand.statsHtml answer]).
Proof.
  revert answer. by_exploring.
  all: read_messages.
  all: try solve [intros ? []].
  all: intros answer [<- | []].
  all: split; [first [reflexivity | discriminate]|]; split; [reflexivity|].
  all: split; [first [solve [intros html []] | intros html [<- | []]; reflexivity]|].
  all: first [discriminate | intros _; split; reflexivity].
Qed.

(** X15. Every text the commands show carries the product prefix, and no
    progress indicator can be cancelled: in every run of every command, each
    notification, each modal dialog and each progress title starts with
    "rootCauseAI: ". *)
Theorem commands_prefix_every_text (command : Command) :
  Forall (fun text => exists rest, text = "rootCauseAI: " +:+ rest)
    (omap Observe.shown_text (trace_of host (execute command client) w)) /\
  Forall (fun c => c = false)
    (omap Observe.cancellable (trace_of host (execute command client) w)).
Proof.
  destruct command; by_exploring.
  all: split; repeat constructor; eexists; reflexivity.
Qed.

(** X16. Each command keeps to its own part of the backend: Fix calls only
    the health probe, the analysis and apply-fix; Explain only the analysis;
    Undo only undo-last; ShowHistory only the history; ShowStats only the
    statistics; each of them at most once per run. No command undoes a fix
    by its identifier. *)
Theorem commands_backend_footprint (command : Command) :
  Forall (fun e => Trace.is_backend_call e = true -> Observe.may_call command e = true)
    (trace_of host (execute command client) w) /\
  (forall op_test,
     In op_test [Observe.is_probe; Observe.is_analysis_request; Trace.is_apply_fix;
                 Observe.is_undo_last; Observe.is_history_request;
                 Observe.is_stats_request] ->
     (Observe.count op_test (trace_of host (execute command client) w) <= 1)%nat) /\
  Observe.count Observe.is_undo_by_id (trace_of host (execute command client) w) = 0%nat.
Proof.
  destruct command; by_exploring.
  all: split; [repeat constructor; simpl; congruence|].
  all: split; [|reflexivity].
  all: intros op_test [<- | [<- | [<- | [<- | [<- | [<- | []]]]]]]; vm_compute; lia.
Qed.

End MoreOnCommands.

(** ** The health check at start-up *)

Lemma run_prog_run {World A : Type} (host : Host World) (p : Prog A) (w : World) :
  (Startup.run_prog host p w).2 = run host p w.
Proof.
  revert w. induction p as [a | e | o k IH | X op k IH]; intros w; simpl.
  - reflexivity.
  - reflexivity.
  - rewrite <- IH. now destruct (Startup.run_prog host k w) as [w' [trace outcome]].
  - destruct (host X op w) as [w' settled]. rewrite <- IH.
    now destruct (Startup.run_prog host (k settled) w') as [w'' [trace outcome]].
Qed.

Lemma startup_always_run {World A : Type} (host : Host World)
    (chooser : Startup.Chooser World) (t : Startup.Task A)
    (P : list Startup.Event -> Outcome A -> Prop) :
  Startup.always t P ->
  forall w, P (Startup.run host chooser t w).1 (Startup.run host chooser t w).2.
Proof.
  revert P. induction t as [a | e | X p k IH | text items k IH]; intros P HP w; simpl in *.
  - exact HP.
  - exact HP.
  - pose proof (always_run host p _ HP w) as Hp.
    rewrite <- run_prog_run in Hp.
    destruct (Startup.run_prog host p w) as [w' [trace outcome]]. simpl in Hp.
    specialize (IH _ _ Hp w').
    now destruct (Startup.run host chooser (k (Startup.settle outcome)) w').
  - destruct (chooser text items w) as [w' settled].
    specialize (IH settled _ (HP settled) w').
    now destruct (Startup.run host chooser (k settled) w').
Qed.

Lemma startup_guarded_by_only_after (guard target : Startup.Event -> bool)
    (events : list Startup.Event) :
  Startup.guarded_by guard target events = true ->
  Startup.only_after guard target events.
Proof.
  unfold Startup.only_after. induction events as [|e0 rest IH]; intros Hg i e Hi He.
  - destruct i; discriminate.
  - simpl in Hg. apply andb_true_iff in Hg as [Hnot Hg].
    destruct i as [|i]; simpl in Hi.
    + injection Hi as ->. rewrite He in Hnot. discriminate.
    + apply orb_true_iff in Hg as [Hguard | Hrest].
      * exists 0%nat, e0. repeat split; [lia | assumption].
      * destruct (IH Hrest i e Hi He) as (j & e' & Hlt & Hj & Hguard).
        exists (S j), e'. repeat split; [lia | assumption | assumption].
Qed.

(** One step of a symbolic run of the health check. *)
Ltac startup_step :=
  lazymatch goal with
  | |- forall settled : _ + _, _ => intros [?error | ?value]
  | |- Startup.always ?t _ =>
      match t with
      | context [match ?x with _ => _ end] => is_var x; destruct x
      | context [if negb ?b then _ else _] => destruct b eqn:?
      | context [match ?x with _ => _ end] => destruct x eqn:?
      end
  | |- always ?p _ =>
      match p with
      | context [match ?x with _ => _ end] => is_var x; destruct x
      | context [if negb ?b then _ else _] => destruct b eqn:?
      | context [match ?x with _ => _ end] => destruct x eqn:?
      end
  end.

Ltac startup_exploring :=
  match goal with
  | |- context [Startup.run ?h ?c ?t ?w] =>
      pattern (Startup.run h c t w).1, (Startup.run h c t w).2;
      match goal with
      | |- ?P _ _ => refine (startup_always_run h c t P _ w)
      end
  end;
  unfold Startup.checkBackendHealth, Startup.showBackendInstructions,
    Startup.showWarningMessage, Startup.await, Startup.awaited,
    BackendClient.checkHealth, await;
  repeat (simpl; unfold Startup.awaited; startup_step); simpl;
  repeat match goal with u : unit |- _ => destruct u end.

Section AtStartup.

Context {World : Type}.
Variables (host : Host World) (chooser : Startup.Chooser World)
  (client : BackendClient.t) (w : World).

Let events := Startup.events_of host chooser client w.
Let result := Startup.result_of host chooser client w.

(** X17. The health check at start-up never rejects. It starts with the one
    health probe. When the probe finds the backend running, nothing else
    happens; otherwise (also when the probe fails) the next event is the
    warning "rootCauseAI backend is not running. Start it now?" with the
    buttons "Start Backend" and "Dismiss". *)
Theorem startup_check_warns_when_backend_is_down :
  result = Returned tt /\
  (existsb Startup.probe_running events = true ->
   exists settled, events = [Startup.Inner (Req HttpGetRoot settled)]) /\
  (existsb Startup.probe_running events = false ->
   exists settled answer rest,
     events =
       Startup.Inner (Req HttpGetRoot settled)
       :: Startup.Warned "rootCauseAI backend is not running. Start it now?"
            ["Start Backend"; "Dismiss"] answer
       :: rest).
Proof.
  subst events result. unfold Startup.events_of, Startup.result_of. startup_exploring.
  all: repeat split; try discriminate; intros; try discriminate; eauto.
Qed.

(** X18. After the warning, anything further happens only when the user chose
    "Start Backend": then, and only then, the panel "backendInstructions" is
    created, and the only page ever set is the page of the instructions. No
    second request reaches the backend, and a dismissed or failed warning
    ends the check. *)
Theorem startup_instructions_only_on_request :
  Startup.only_after Startup.chose_start Startup.is_panel events /\
  Forall (fun html => html = Startup.instructionsHtml)
    (omap Trace.page (omap Startup.inner events)) /\
  Observe.count Trace.is_backend_call (omap Startup.inner events) = 1%nat /\
  (existsb Startup.chose_start events = false ->
   length events <= 2)%nat /\
  (existsb Startup.chose_start events = true ->
   exists settled, events !! 2%nat =
     Some (Startup.Inner
             (Req (CreateWebviewPanel "backendInstructions" "Start rootCauseAI Backend"
                     ViewColumnOne false) settled))).
Proof.
  subst events result. unfold Startup.events_of, Startup.result_of. startup_exploring.
  all: repeat split;
    try (apply startup_guarded_by_only_after; simpl;
         repeat match goal with H : String.eqb _ _ = _ |- _ => rewrite H end;
         reflexivity);
    try solve [repeat constructor];
    simpl;
    repeat match goal with H : String.eqb _ _ = _ |- _ => rewrite H end;
    simpl; intros; try discriminate; try lia; eauto.
Qed.

End AtStartup.

(** ** The further properties on concrete runs *)

Lemma fix_needs_running_backend_witness :
  outcome_of (Scenario.host Cases.backend_down)
    (FixErrorCommand.execute (H := Scenario.runtime) Scenario.client) tt = Returned tt.
Proof.
  apply (proj2 (fix_needs_running_backend (runtime := Scenario.runtime)
                  (Scenario.host Cases.backend_down) Scenario.client tt)).
  vm_compute. reflexivity.
Defined.

Lemma fix_needs_error_log_witness :
  Trace.outputs
    (trace_of (Scenario.host Cases.nothing_pasted)
       (FixErrorCommand.execute (H := Scenario.runtime) Scenario.client) tt)
  = [ShowWarningMessage "rootCauseAI: No error log provided"].
Proof.
  apply (proj2 (fix_needs_error_log (runtime := Scenario.runtime)
                  (Scenario.host Cases.nothing_pasted) Scenario.client tt) None).
  - vm_compute. left. reflexivity.
  - left. reflexivity.
Defined.

Lemma fix_analysis_request_witness :
  omap Observe.analyze_request
    (trace_of (Scenario.host Scenario.pick_dismissed)
       (FixErrorCommand.execute (H := Scenario.runtime) Scenario.client) tt)
  = [AnalyzeRequest.mk "Traceback" "/work" (JStr "gemini") (JNum 2)].
Proof.
  apply (fix_analysis_request (runtime := Scenario.runtime)
           (Scenario.host Scenario.pick_dismissed) Scenario.client tt).
  vm_compute. left. reflexivity.
Defined.

Lemma fix_previews_before_confirming_witness :
  length
    (omap Observe.untitled
       (trace_of (Scenario.host Scenario.pick_and_confirm)
          (FixErrorCommand.execute (H := Scenario.runtime) Scenario.client) tt))
  = 2%nat.
Proof.
  destruct (fix_previews_before_confirming (runtime := Scenario.runtime)
              (Scenario.host Scenario.pick_and_confirm) Scenario.client tt)
    as (_ & _ & Hdocuments).
  destruct (Hdocuments
              (FixErrorCommand.quickPickItem (H := Scenario.runtime) 0 Scenario.a_fix))
    as (documents & <- & _ & Hlength).
  - vm_compute. left. reflexivity.
  - apply Hlength. vm_compute. reflexivity.
Defined.

Lemma fix_apply_request_witness :
  omap Observe.apply_request
    (trace_of (Scenario.host Scenario.pick_and_confirm)
       (FixErrorCommand.execute (H := Scenario.runtime) Scenario.client) tt)
  = [ApplyFixRequest.mk Scenario.a_fix "python" false].
Proof.
  apply (fix_apply_request (runtime := Scenario.runtime)
           (Scenario.host Scenario.pick_and_confirm) Scenario.client tt).
  vm_compute. left. reflexivity.
Defined.

Lemma fix_reports_apply_result_witness :
  omap Trace.opened
    (trace_of (Scenario.host Cases.apply_refused)
       (FixErrorCommand.execute (H := Scenario.runtime) Scenario.client) tt)
  = [].
Proof.
  apply (fix_reports_apply_result (runtime := Scenario.runtime)
           (Scenario.host Cases.apply_refused) Scenario.client tt
           (inr (ApplyFixResponse.mk false "file changed on disk" None))).
  vm_compute. left. reflexivity.
Defined.

Lemma explain_needs_selection_witness :
  Trace.outputs
    (trace_of (Scenario.host Scenario.analysis_unreachable)
       (ExplainErrorCommand.execute (H := Scenario.runtime) Scenario.client) tt)
  = [ShowWarningMessage "rootCauseAI: No active editor"].
Proof.
  apply (explain_needs_selection (runtime := Scenario.runtime)
           (Scenario.host Scenario.analysis_unreachable) Scenario.client tt None).
  - vm_compute. left. reflexivity.
  - left. reflexivity.
Defined.

Lemma explain_shows_every_response_witness :
  omap Observe.panel_type
    (trace_of (Scenario.host (Scenario.base Scenario.failed_with_fix))
       (ExplainErrorCommand.execute (H := Scenario.runtime) Scenario.client) tt)
  = ["errorExplanation"].
Proof.
  destruct (explain_shows_every_response (runtime := Scenario.runtime)
              (Scenario.host (Scenario.base Scenario.failed_with_fix)) Scenario.client tt)
    as (_ & _ & _ & _ & Hanswered).
  apply (Hanswered Scenario.failed_with_fix).
  vm_compute. reflexivity.
Defined.

Lemma undo_reports_answer_witness :
  Trace.outputs
    (trace_of (Scenario.host Cases.undo_refused)
       (UndoFixCommand.execute (H := Scenario.runtime) Scenario.client) tt)
  = [ShowErrorMessage "rootCauseAI: No fixes to undo"].
Proof.
  apply (undo_reports_answer (runtime := Scenario.runtime)
           (Scenario.host Cases.undo_refused) Scenario.client tt
           (UndoResponse.mk false "No fixes to undo")).
  vm_compute. left. reflexivity.
Defined.

Lemma stats_shows_received_counters_witness :
  omap Trace.page
    (trace_of (Scenario.host Scenario.pick_dismissed)
       (ShowStatsCommand.execute (H := Scenario.runtime) Scenario.client) tt)
  = [ShowStatsCommand.statsHtml (H := Scenario.runtime) (Stats.mk 0 0 0 0)].
Proof.
  destruct (stats_shows_received_counters (runtime := Scenario.runtime)
              (Scenario.host Scenario.pick_dismissed) Scenario.client tt (Stats.mk 0 0 0 0))
    as (_ & _ & _ & Hquiet).
  - vm_compute. left. reflexivity.
  - apply Hquiet. vm_compute. reflexivity.
Defined.

Lemma commands_backend_footprint_witness :
  (Observe.count Trace.is_apply_fix
     (trace_of (Scenario.host Scenario.pick_and_confirm)
        (execute (H := Scenario.runtime) FixError Scenario.client) tt) <= 1)%nat.
Proof.
  apply (proj1 (proj2 (commands_backend_footprint (runtime := Scenario.runtime)
                         (Scenario.host Scenario.pick_and_confirm) Scenario.client tt FixError))).
  simpl. tauto.
Defined.

Lemma startup_check_warns_when_backend_is_down_witness :
  exists settled answer rest,
    Startup.events_of (Scenario.host Cases.backend_down)
      (Startup.fixed_choice (Some "Dismiss")) Scenario.client tt
    = Startup.Inner (Req HttpGetRoot settled)
      :: Startup.Warned "rootCauseAI backend is not running. Start it now?"
           ["Start Backend"; "Dismiss"] answer
      :: rest.
Proof.
  apply (proj2 (proj2 (startup_check_warns_when_backend_is_down
                         (Scenario.host Cases.backend_down)
                         (Startup.fixed_choice (Some "Dismiss")) Scenario.client tt))).
  vm_compute. reflexivity.
Defined.

Lemma startup_instructions_only_on_request_witness :
  exists settled,
    Startup.events_of (Scenario.host Cases.backend_down)
      (Startup.fixed_choice (Some "Start Backend")) Scenario.client tt !! 2%nat
    = Some (Startup.Inner
              (Req (CreateWebviewPanel "backendInstructions" "Start rootCauseAI Backend"
                      ViewColumnOne false) settled)).
Proof.
  apply (proj2 (proj2 (proj2 (proj2 (startup_instructions_only_on_request
                         (Scenario.host Cases.backend_down)
                         (Startup.fixed_choice (Some "Start Backend")) Scenario.client tt))))).
  vm_compute. reflexivity.
Defined.
